(** * CryptoGenesis: turn resolution and state reconciliation

    A shallow embedding of the game engine of the repository: the types of
    [types.ts], the handlers and effects of [App.tsx] ([handleLoadGame],
    [handleStartGame], [handlePurchaseModule], [handleRemoveModule],
    [handleSendMessage], [handleDeleteSave], [saveApiKey], the mount and save
    effects), the oracle client of [services/geminiService.ts]
    ([initializeGame], [restoreSession], [processTurn]), and the handlers of
    [components/Infrastructure.tsx] and [components/Terminal.tsx] through
    which the page reaches them.

    Modelling conventions.
    - A JavaScript [number] that holds a stat, a delta, a cost or a slot
      index is an integer of [Z] (the response schema declares every delta
      [Type.INTEGER]).  Two places leave the integers and are modelled apart:
      [Math.floor (u * 0.1)] multiplies doubles ([floorTenth]), and
      [JSON.parse] can hand over an infinity, whose sums can be NaN (module
      [Js], with the merge of a turn over such numbers).
    - An optional field is an [option]; [x || 0] on an optional number is
      [or0].
    - An array is a list of elements that may be holes or [undefined]
      ([JsArray]); index assignment extends the array as JavaScript does.
    - A function that can throw returns a [Result]; what the remote model
      answers is an input of the embedding ([Reply]).
    - An identifier built by a template string keeps the template's holes
      ([EventId], [ModuleId]); [Date.now ()] is the parameter [now]. *)

From Stdlib Require Import ZArith Lia.
From stdpp Require Import base option list strings.

Local Open Scope Z_scope.

(** ** Exceptions *)

Inductive Exn : Type :=
| TypeError
| SyntaxError
| Error (msg : string)
| Rejected.

Inductive Result (A : Type) : Type :=
| Return (a : A)
| Throw (e : Exn).
Arguments Return {A} a.
Arguments Throw {A} e.

#[global] Instance Result_bind : MBind Result :=
  fun A B (k : A -> Result B) (r : Result A) =>
    match r with
    | Return a => k a
    | Throw e => Throw e
    end.

(** ** Arrays *)

Inductive Elem (A : Type) : Type :=
| Hole
| Undefined
| Val (a : A).
Arguments Hole {A}.
Arguments Undefined {A}.
Arguments Val {A} a.

Abbreviation JsArray A := (list (Elem A)).

(** [[...a]]: the iterator reads every index below the length, so a hole
    comes out as [undefined]. *)
Definition spread {A : Type} (a : JsArray A) : JsArray A :=
  map (fun e => match e with Hole => Undefined | _ => e end) a.

(** [a[i] = v].  An integer in [0, 2^32 - 2] is an array index: inside the
    array it replaces the element, at or past the length it extends the
    array and leaves holes in between.  Any other key is an ordinary
    property, which no iteration, spread or serialisation of the array
    sees. *)
Definition assign {A : Type} (a : JsArray A) (i : Z) (v : A) : JsArray A :=
  if (i <? 0) || (2 ^ 32 - 1 <=? i) then a
  else
    let n := Z.to_nat i in
    if (n <? length a)%nat then <[n := Val v]> a
    else a ++ replicate (n - length a)%nat Hole ++ [Val v].

(** [a.forEach (f)] with an accumulator threaded through the callback: holes
    are skipped, and the callback sees [None] for an [undefined] element. *)
Fixpoint forEach {A S : Type} (f : S -> option A -> Result S)
    (a : JsArray A) (s : S) : Result S :=
  match a with
  | [] => Return s
  | Hole :: a' => forEach f a' s
  | Undefined :: a' => s' ← f s None; forEach f a' s'
  | Val x :: a' => s' ← f s (Some x); forEach f a' s'
  end.

(** ** types.ts *)

Inductive LanguageCode : Type := en | fa | ru | zh.

Record GameSettings : Type := mkSettings {
  projectName : string;
  ticker : string;
  founderName : string;
  language : LanguageCode
}.

Record GameStats : Type := mkStats {
  funds : Z;
  users : Z;
  security : Z;
  hype : Z;
  techLevel : Z;
  decentralization : Z;
  era : Z
}.

(** [Partial<GameStats>] *)
Record PartialStats : Type := mkPartial {
  p_funds : option Z;
  p_users : option Z;
  p_security : option Z;
  p_hype : option Z;
  p_techLevel : option Z;
  p_decentralization : option Z;
  p_era : option Z
}.

Inductive ModuleType : Type := Miner | Validator | Rpc | Firewall.

#[global] Instance ModuleType_eq_dec : EqDecision ModuleType.
Proof. solve_decision. Defined.

(** [Omit<InfrastructureModule, 'id'>] *)
Record ModuleDef : Type := mkDef {
  type : ModuleType;
  name : string;
  cost : Z;
  maintenance : Z;
  description : string;
  statsEffect : PartialStats
}.

(** [`${type}-${Date.now()}`] *)
Record ModuleId : Type := mkModuleId {
  id_type : ModuleType;
  id_now : Z
}.

Record InfrastructureModule : Type := mkModule {
  mod_id : ModuleId;
  mod_def :> ModuleDef
}.

Record GridSlot : Type := mkSlot {
  slot_id : Z;
  module : option InfrastructureModule
}.

Inductive EventKind : Type := Narrative | Choice | Alert | Success | Failure.

Inductive EventId : Type :=
| id_turn_user (turnCount : Z)           (* `turn-${turnCount}-user` *)
| id_turn_ai (turn : Z)                  (* `turn-${turnCount + 1}-ai` *)
| id_turn_init (era now : Z)             (* `turn-${era}-init-${now}` *)
| id_error_init                          (* 'error-init' *)
| id_error (now : Z).                    (* `error-${now}` *)

Record GameEvent : Type := mkEvent {
  ev_id : EventId;
  ev_turn : Z;
  ev_narrative : string;
  ev_choices : option (list string);
  ev_type : EventKind
}.

(** [GameState], with the type of the [infrastructure] field left open: the
    running state holds an array, a record parsed from storage may lack the
    field. *)
Record GameStateOf (I : Type) : Type := mkState {
  isStarted : bool;
  isLoading : bool;
  turnCount : Z;
  settings : GameSettings;
  stats : GameStats;
  history : list GameEvent;
  gameOver : bool;
  gameWon : bool;
  lastSaved : option string;
  infrastructure : I
}.
Arguments mkState {I}.
Arguments isStarted {I}.
Arguments isLoading {I}.
Arguments turnCount {I}.
Arguments settings {I}.
Arguments stats {I}.
Arguments history {I}.
Arguments gameOver {I}.
Arguments gameWon {I}.
Arguments lastSaved {I}.
Arguments infrastructure {I}.

Definition GameState : Type := GameStateOf (JsArray GridSlot).

Record StatsUpdate : Type := mkUpdate {
  funds_change : option Z;
  users_change : option Z;
  security_change : option Z;
  hype_change : option Z;
  tech_level_change : option Z;
  decentralization_change : option Z
}.

Inductive OracleEvent : Type := normal | crisis | opportunity | game_over | victory.

#[global] Instance OracleEvent_eq_dec : EqDecision OracleEvent.
Proof. solve_decision. Defined.

Record GeminiResponse : Type := mkResponse {
  narrative : string;
  choices : list string;
  stats_update : StatsUpdate;
  event_type : OracleEvent
}.

(** ** App.tsx: constants *)

Definition INITIAL_STATS : GameStats :=
  {| funds := 10000; users := 1; security := 50; hype := 10;
     techLevel := 10; decentralization := 0; era := 1 |}.

(** [Array(12).fill(null).map((_, i) => ({ id: i, module: null }))] *)
Definition INITIAL_GRID : JsArray GridSlot :=
  map (fun i => Val {| slot_id := Z.of_nat i; module := None |}) (seq 0 12).

Definition AVAILABLE_MODULES (t : ModuleType) : ModuleDef :=
  match t with
  | Miner =>
      {| type := Miner; name := "ASIC Miner X1"; cost := 1500;
         maintenance := 100; description := "Generates funds via PoW.";
         statsEffect :=
           {| p_funds := Some 500; p_users := None; p_security := None;
              p_hype := None; p_techLevel := None;
              p_decentralization := Some (-2); p_era := None |} |}
  | Validator =>
      {| type := Validator; name := "Validator Node"; cost := 2000;
         maintenance := 50; description := "Secures transactions.";
         statsEffect :=
           {| p_funds := None; p_users := None; p_security := Some 5;
              p_hype := None; p_techLevel := None;
              p_decentralization := Some 2; p_era := None |} |}
  | Rpc =>
      {| type := Rpc; name := "RPC Cluster"; cost := 3000;
         maintenance := 200; description := "Boosts network speed.";
         statsEffect :=
           {| p_funds := None; p_users := None; p_security := None;
              p_hype := Some 4; p_techLevel := Some 2;
              p_decentralization := None; p_era := None |} |}
  | Firewall =>
      {| type := Firewall; name := "Quantum Firewall"; cost := 5000;
         maintenance := 300; description := "Hardened security layer.";
         statsEffect :=
           {| p_funds := None; p_users := None; p_security := Some 10;
              p_hype := None; p_techLevel := None;
              p_decentralization := None; p_era := None |} |}
  end.

(** [x || 0] where [x] is a number or [undefined] *)
Definition or0 (x : option Z) : Z := default 0 x.

(** ** App.tsx: the passive effects and the merge of [handleSendMessage] *)

(** The object literal [{ funds: 0, security: 0, hype: 0, techLevel: 0 }]. *)
Definition infraEffects0 : PartialStats :=
  {| p_funds := Some 0; p_users := None; p_security := Some 0;
     p_hype := Some 0; p_techLevel := Some 0;
     p_decentralization := None; p_era := None |}.

Definition add_funds (e : PartialStats) (d : Z) : PartialStats :=
  {| p_funds := Some (or0 (p_funds e) + d); p_users := p_users e;
     p_security := p_security e; p_hype := p_hype e;
     p_techLevel := p_techLevel e;
     p_decentralization := p_decentralization e; p_era := p_era e |}.

Definition add_security (e : PartialStats) (d : Z) : PartialStats :=
  {| p_funds := p_funds e; p_users := p_users e;
     p_security := Some (or0 (p_security e) + d); p_hype := p_hype e;
     p_techLevel := p_techLevel e;
     p_decentralization := p_decentralization e; p_era := p_era e |}.

Definition add_hype (e : PartialStats) (d : Z) : PartialStats :=
  {| p_funds := p_funds e; p_users := p_users e;
     p_security := p_security e; p_hype := Some (or0 (p_hype e) + d);
     p_techLevel := p_techLevel e;
     p_decentralization := p_decentralization e; p_era := p_era e |}.

(** The callback of [gameState.infrastructure.forEach]: reading
    [slot.module] of [undefined] throws. *)
Definition infraCallback (e : PartialStats) (slot : option GridSlot)
    : Result PartialStats :=
  match slot with
  | None => Throw TypeError
  | Some slot =>
      match module slot with
      | None => Return e
      | Some m =>
          let e1 := if decide (type m = Miner) then add_funds e 150 else e in
          let e2 :=
            if decide (type m = Validator) then add_security e1 1 else e1 in
          let e3 := if decide (type m = Rpc) then add_hype e2 1 else e2 in
          Return e3
      end
  end.

Definition infraEffects (grid : JsArray GridSlot) : Result PartialStats :=
  forEach infraCallback grid infraEffects0.

Definition newStats (s : GameStats) (u : StatsUpdate) (e : PartialStats)
    : GameStats :=
  {| funds := Z.max 0 (funds s + or0 (funds_change u) + or0 (p_funds e));
     users := Z.max 0 (users s + or0 (users_change u));
     security :=
       Z.min 100
         (Z.max 0 (security s + or0 (security_change u) + or0 (p_security e)));
     hype :=
       Z.min 100 (Z.max 0 (hype s + or0 (hype_change u) + or0 (p_hype e)));
     techLevel :=
       Z.min 100 (Z.max 0 (techLevel s + or0 (tech_level_change u)));
     decentralization :=
       Z.min 100
         (Z.max 0 (decentralization s + or0 (decentralization_change u)));
     era := era s |}.

(** ** App.tsx: the infrastructure handlers *)

Definition installed (now : Z) (t : ModuleType) : InfrastructureModule :=
  {| mod_id := {| id_type := t; id_now := now |};
     mod_def := AVAILABLE_MODULES t |}.

Definition handlePurchaseModule (now : Z) (gameState : GameState)
    (slotId : Z) (t : ModuleType) : GameState :=
  let moduleDef := AVAILABLE_MODULES t in
  if funds (stats gameState) <? cost moduleDef then gameState
  else
    let prev := gameState in
    let newInfra :=
      assign (spread (infrastructure prev)) slotId
        {| slot_id := slotId; module := Some (installed now t) |} in
    {| isStarted := isStarted prev;
       isLoading := isLoading prev;
       turnCount := turnCount prev;
       settings := settings prev;
       stats :=
         {| funds := funds (stats prev) - cost moduleDef;
            users := users (stats prev);
            security := security (stats prev);
            hype := hype (stats prev);
            techLevel := techLevel (stats prev);
            decentralization := decentralization (stats prev);
            era := era (stats prev) |};
       history := history prev;
       gameOver := gameOver prev;
       gameWon := gameWon prev;
       lastSaved := lastSaved prev;
       infrastructure := newInfra |}.

Definition handleRemoveModule (gameState : GameState) (slotId : Z)
    : GameState :=
  let prev := gameState in
  let newInfra :=
    assign (spread (infrastructure prev)) slotId
      {| slot_id := slotId; module := None |} in
  {| isStarted := isStarted prev;
     isLoading := isLoading prev;
     turnCount := turnCount prev;
     settings := settings prev;
     stats := stats prev;
     history := history prev;
     gameOver := gameOver prev;
     gameWon := gameWon prev;
     lastSaved := lastSaved prev;
     infrastructure := newInfra |}.

(** ** App.tsx: [handleSendMessage] *)

Definition aiEventType (t : OracleEvent) : EventKind :=
  if decide (t = game_over) then Failure
  else if decide (t = victory) then Success
  else Narrative.

(** [processTurnResult] is how the promise of [processTurn] settles, at the
    type its signature declares.  The first component of the result is the
    game state when the handler is done, the second tells whether the
    handler itself returned or threw. *)
Definition handleSendMessage (now : Z) (gameState : GameState)
    (message : string) (processTurnResult : Result GeminiResponse)
    : GameState * Result unit :=
  let userEvent :=
    {| ev_id := id_turn_user (turnCount gameState);
       ev_turn := turnCount gameState;
       ev_narrative := message;
       ev_choices := None;
       ev_type := Choice |} in
  let prev1 :=
    {| isStarted := isStarted gameState;
       isLoading := true;
       turnCount := turnCount gameState;
       settings := settings gameState;
       stats := stats gameState;
       history := history gameState ++ [userEvent];
       gameOver := gameOver gameState;
       gameWon := gameWon gameState;
       lastSaved := lastSaved gameState;
       infrastructure := infrastructure gameState |} in
  match infraEffects (infrastructure gameState) with
  | Throw e => (prev1, Throw e)
  | Return effects =>
      match processTurnResult with
      | Return response =>
          let aiEvent :=
            {| ev_id := id_turn_ai (turnCount gameState + 1);
               ev_turn := turnCount gameState + 1;
               ev_narrative := narrative response;
               ev_choices := Some (choices response);
               ev_type := aiEventType (event_type response) |} in
          ({| isStarted := isStarted prev1;
              isLoading := false;
              turnCount := turnCount prev1 + 1;
              settings := settings prev1;
              stats :=
                newStats (stats gameState) (stats_update response) effects;
              history := history prev1 ++ [aiEvent];
              gameOver := bool_decide (event_type response = game_over);
              gameWon := bool_decide (event_type response = victory);
              lastSaved := lastSaved prev1;
              infrastructure := infrastructure prev1 |}, Return ())
      | Throw _ =>
          ({| isStarted := isStarted prev1;
              isLoading := false;
              turnCount := turnCount prev1;
              settings := settings prev1;
              stats := stats prev1;
              history :=
                history prev1 ++
                  [ {| ev_id := id_error now;
                       ev_turn := turnCount prev1;
                       ev_narrative :=
                         "Network Error. Connection to Blockchain failed. (Check API Key)";
                       ev_choices := None;
                       ev_type := Alert |} ];
              gameOver := gameOver prev1;
              gameWon := gameWon prev1;
              lastSaved := lastSaved prev1;
              infrastructure := infrastructure prev1 |}, Return ())
      end
  end.

(** ** App.tsx: [handleStartGame] *)

(** [eraOverride || 1] *)
Definition eraOr1 (eraOverride : option Z) : Z :=
  match eraOverride with
  | Some n => if n =? 0 then 1 else n
  | None => 1
  end.

(** The double nearest to [n / 2 ^ 55], ties to even, as a numerator over
    [2 ^ 55], for [0 <= n]: a double keeps 53 significant bits. *)
Definition roundToDouble (n : Z) : Z :=
  let s := Z.log2 n - 52 in
  if s <=? 0 then n
  else
    let q := n / 2 ^ s in
    let r := n mod 2 ^ s in
    let half := 2 ^ (s - 1) in
    (if (half <? r) || ((r =? half) && Z.odd q) then q + 1 else q) * 2 ^ s.

(** The double written [0.1] is [tenth / 2 ^ 55]. *)
Definition tenth : Z := 3602879701896397.

(** [Math.floor (u * 0.1)] for an integer [u]: the product of the doubles
    [u] and [0.1] is the exact product rounded to a double, and the
    rounding is symmetric in the sign. *)
Definition floorTenth (u : Z) : Z :=
  (Z.sgn u * roundToDouble (Z.abs u * tenth)) / 2 ^ 55.

Definition startingStats (gameState : GameState) (eraOverride : option Z)
    (keepStats : bool) : GameStats :=
  if keepStats then
    {| funds := funds (stats gameState);
       users := floorTenth (users (stats gameState));
       security := 50;
       hype := 50;
       techLevel := 20;
       decentralization := decentralization (stats gameState);
       era := eraOr1 eraOverride |}
  else
    {| funds := funds INITIAL_STATS;
       users := users INITIAL_STATS;
       security := security INITIAL_STATS;
       hype := hype INITIAL_STATS;
       techLevel := techLevel INITIAL_STATS;
       decentralization := decentralization INITIAL_STATS;
       era := eraOr1 eraOverride |}.

(** The component state the handlers read and write. *)
Inductive SavedText : Type :=
| Unparsable
| Parses (parsed : GameStateOf (option (JsArray GridSlot))).

Record App : Type := mkApp {
  setupMode : bool;
  userApiKey : string;
  formSettings : GameSettings;
  gameState : GameState;
  saveFound : bool;
  storedSave : option SavedText
}.

Definition DEFAULT_API_KEY : string := EmptyString.

(** [a || b] on strings: the empty string is falsy. *)
Definition orStr (a b : string) : string :=
  if decide (a = EmptyString) then b else a.

Definition getEffectiveApiKey (app : App) : string :=
  orStr (orStr (userApiKey app) DEFAULT_API_KEY) EmptyString.

Definition formIncomplete (s : GameSettings) : bool :=
  bool_decide (projectName s = EmptyString)
  || bool_decide (ticker s = EmptyString)
  || bool_decide (founderName s = EmptyString).

(** The state after the first [setGameState] of [handleStartGame]. *)
Definition seededState (app : App) (eraOverride : option Z) (keepStats : bool)
    : GameState :=
  let prev := gameState app in
  {| isStarted := true;
     isLoading := true;
     turnCount := turnCount prev;
     settings := formSettings app;
     stats := startingStats (gameState app) eraOverride keepStats;
     history := if keepStats then history prev else [];
     gameOver := false;
     gameWon := false;
     lastSaved := lastSaved prev;
     infrastructure :=
       if keepStats then infrastructure prev else INITIAL_GRID |}.

(** [init] is how the promise of [initializeGame] settles, at the type its
    signature declares. *)
Definition handleStartGame (now : Z) (app : App) (eraOverride : option Z)
    (keepStats : bool) (init : Result GeminiResponse) : App :=
  if formIncomplete (formSettings app) then app
  else if decide (getEffectiveApiKey app = EmptyString) then app
  else
    let start := startingStats (gameState app) eraOverride keepStats in
    let prev := seededState app eraOverride keepStats in
    let final :=
      match init with
      | Return response =>
          let newEvent :=
            {| ev_id := id_turn_init (era start) now;
               ev_turn := 0;
               ev_narrative := narrative response;
               ev_choices := Some (choices response);
               ev_type := Narrative |} in
          {| isStarted := isStarted prev;
             isLoading := false;
             turnCount := turnCount prev;
             settings := settings prev;
             stats :=
               {| funds :=
                    funds start + or0 (funds_change (stats_update response));
                  users := users start;
                  security := security start;
                  hype := hype start;
                  techLevel := techLevel start;
                  decentralization := decentralization start;
                  era := era start |};
             history := (if keepStats then history prev else []) ++ [newEvent];
             gameOver := gameOver prev;
             gameWon := gameWon prev;
             lastSaved := lastSaved prev;
             infrastructure := infrastructure prev |}
      | Throw _ =>
          {| isStarted := isStarted prev;
             isLoading := false;
             turnCount := turnCount prev;
             settings := settings prev;
             stats := stats prev;
             history :=
               history prev ++
                 [ {| ev_id := id_error_init;
                      ev_turn := 0;
                      ev_narrative :=
                        "Error initializing game engine. Check API Key validity.";
                      ev_choices := None;
                      ev_type := Alert |} ];
             gameOver := gameOver prev;
             gameWon := gameWon prev;
             lastSaved := lastSaved prev;
             infrastructure := infrastructure prev |}
      end in
    {| setupMode := false;
       userApiKey := userApiKey app;
       formSettings := formSettings app;
       gameState := final;
       saveFound := saveFound app;
       storedSave := storedSave app |}.

(** The click handler of the FORK & EVOLVE button:
    [handleStartGame (gameState.stats.era + 1, true)]. *)
Definition forkAndEvolve (now : Z) (app : App) (init : Result GeminiResponse)
    : App :=
  handleStartGame now app (Some (era (stats (gameState app)) + 1)) true init.

(** ** services/geminiService.ts *)

(** A value that [JSON.parse] can return. *)
#[local] Set Warnings "-register-all".
Inductive JsValue : Type :=
| JNull
| JBool (b : bool)
| JNum (n : Z)
| JStr (s : string)
| JArr (items : list JsValue)
| JObj (fields : list (string * JsValue)).

(** What one [chatSession.sendMessage] followed by [JSON.parse (result.text)]
    comes to: the call is rejected (transport failure), the result has no
    text, the text is not JSON, or the text is the JSON of a value. *)
Inductive Reply : Type :=
| Rejects
| NoText
| Malformed
| WellFormed (v : JsValue).

(** The messages the client sends, by the holes of their templates. *)
Inductive Prompt : Type :=
| InitPrompt (evolved : bool) (era : Z) (founderName projectName : string)
| RestorePrompt (stats : GameStats)
    (hardwareSummary historySummary founderName : string)
| TurnPrompt (userInput : string) (currentStats : GameStats)
    (hardwareSummary : string).

(** A chat session answers prompts; [ai.chats.create] makes one from the
    configuration, of which the system instruction depends on the settings
    and the era. *)
Definition Chat : Type := Prompt -> Reply.
Definition ChatFactory : Type := GameSettings -> Z -> Chat.

(** [infrastructure.filter (slot => slot.module).map (slot => slot.module?.name)] *)
Definition moduleNames (infra : JsArray GridSlot) : Result (list string) :=
  forEach
    (fun (acc : list string) (slot : option GridSlot) =>
       match slot with
       | None => Throw TypeError
       | Some slot =>
           match module slot with
           | Some m => Return (acc ++ [name m])
           | None => Return acc
           end
       end)
    infra [].

(** [names.join (", ") || "No hardware installed"] *)
Definition hardwareSummary (infra : JsArray GridSlot) : Result string :=
  names ← moduleNames infra;
  Return (orStr (String.concat ", " names) "No hardware installed").

Definition initializeGame (create : ChatFactory) (chatSession : option Chat)
    (apiKey : string) (settings : GameSettings) (era : option Z)
    : option Chat * Result JsValue :=
  let era := default 1 era in
  if decide (apiKey = EmptyString)
  then (chatSession, Throw (Error "API Key missing"))
  else
    let chat := create settings era in
    let prompt :=
      InitPrompt (1 <? era) era (founderName settings) (projectName settings) in
    (Some chat,
     match chat prompt with
     | Rejects => Throw Rejected
     | NoText => Throw (Error "No response from AI")
     | Malformed => Throw SyntaxError
     | WellFormed v => Return v
     end).

Definition restoreSession (create : ChatFactory) (chatSession : option Chat)
    (apiKey : string) (settings : GameSettings) (historySummary : string)
    (stats : GameStats) (infrastructure : JsArray GridSlot)
    : option Chat * Result unit :=
  if decide (apiKey = EmptyString)
  then (chatSession, Throw (Error "API Key missing"))
  else
    let chat := create settings (era stats) in
    (Some chat,
     summary ← hardwareSummary infrastructure;
     let prompt :=
       RestorePrompt stats summary historySummary (founderName settings) in
     match chat prompt with
     | _ => Return ()
     end).

(** The object literal that the [catch] of [processTurn] returns. *)
Definition fallback : JsValue :=
  JObj [ ("narrative",
          JStr "Connection lost. The blockchain is congested. Try again.");
         ("choices", JArr [JStr "Retry"]);
         ("stats_update", JObj []);
         ("event_type", JStr "normal") ].

Definition processTurn (chatSession : option Chat) (userInput : string)
    (currentStats : GameStats) (infrastructure : JsArray GridSlot)
    : Result JsValue :=
  match chatSession with
  | None => Throw (Error "Game not initialized")
  | Some chat =>
      summary ← hardwareSummary infrastructure;
      let prompt := TurnPrompt userInput currentStats summary in
      match chat prompt with
      | Rejects => Return fallback
      | NoText => Return fallback
      | Malformed => Return fallback
      | WellFormed v => Return v
      end
  end.

(** *** The interface [GeminiResponse] as a reading of a JSON value *)

Definition field (k : string) (v : JsValue) : option JsValue :=
  match v with
  | JObj fs => snd <$> find (fun kv => String.eqb (fst kv) k) fs
  | _ => None
  end.

Definition asString (v : JsValue) : option string :=
  match v with JStr s => Some s | _ => None end.

(** An optional number field: absent, or a number. *)
Definition optNumber (k : string) (v : JsValue) : option (option Z) :=
  match field k v with
  | None => Some None
  | Some (JNum n) => Some (Some n)
  | Some _ => None
  end.

Definition asStatsUpdate (v : JsValue) : option StatsUpdate :=
  match v with
  | JObj _ =>
      f ← optNumber "funds_change" v;
      u ← optNumber "users_change" v;
      s ← optNumber "security_change" v;
      h ← optNumber "hype_change" v;
      t ← optNumber "tech_level_change" v;
      d ← optNumber "decentralization_change" v;
      Some {| funds_change := f; users_change := u; security_change := s;
              hype_change := h; tech_level_change := t;
              decentralization_change := d |}
  | _ => None
  end.

Definition asOracleEvent (s : string) : option OracleEvent :=
  if String.eqb s "normal" then Some normal
  else if String.eqb s "crisis" then Some crisis
  else if String.eqb s "opportunity" then Some opportunity
  else if String.eqb s "game_over" then Some game_over
  else if String.eqb s "victory" then Some victory
  else None.

Definition asStrings (v : JsValue) : option (list string) :=
  match v with
  | JArr items => mapM (M := option) asString items
  | _ => None
  end.

Definition asGeminiResponse (v : JsValue) : option GeminiResponse :=
  n ← field "narrative" v ≫= asString;
  cs ← field "choices" v ≫= asStrings;
  u ← field "stats_update" v ≫= asStatsUpdate;
  t ← field "event_type" v ≫= asString;
  e ← asOracleEvent t;
  Some {| narrative := n; choices := cs; stats_update := u; event_type := e |}.

(** The fallback at the type [GeminiResponse]. *)
Definition fallbackResponse : GeminiResponse :=
  {| narrative := "Connection lost. The blockchain is congested. Try again.";
     choices := ["Retry"];
     stats_update :=
       {| funds_change := None; users_change := None;
          security_change := None; hype_change := None;
          tech_level_change := None; decentralization_change := None |};
     event_type := normal |}.

(** ** App.tsx: [handleLoadGame] *)

(** [parsed.history.slice (-5).map (h => h.narrative).join (" ")] *)
Definition historySummary (h : list GameEvent) : string :=
  String.concat " " (map ev_narrative (drop (length h - 5) h)).

Definition handleLoadGame (create : ChatFactory) (chatSession : option Chat)
    (app : App) : App * option Chat :=
  match storedSave app with
  | None => (app, chatSession)
  | Some saved =>
      let effectiveKey := getEffectiveApiKey app in
      if decide (effectiveKey = EmptyString) then (app, chatSession)
      else
        match saved with
        | Unparsable =>
            ({| setupMode := true;
                userApiKey := userApiKey app;
                formSettings := formSettings app;
                gameState := gameState app;
                saveFound := false;
                storedSave := None |}, chatSession)
        | Parses parsed0 =>
            let infra := default INITIAL_GRID (infrastructure parsed0) in
            let loading : GameState :=
              {| isStarted := isStarted parsed0;
                 isLoading := true;
                 turnCount := turnCount parsed0;
                 settings := settings parsed0;
                 stats := stats parsed0;
                 history := history parsed0;
                 gameOver := gameOver parsed0;
                 gameWon := gameWon parsed0;
                 lastSaved := lastSaved parsed0;
                 infrastructure := infra |} in
            let summary := historySummary (history parsed0) in
            match
              restoreSession create chatSession effectiveKey
                (settings parsed0) summary (stats parsed0) infra
            with
            | (session, Return _) =>
                ({| setupMode := false;
                    userApiKey := userApiKey app;
                    formSettings := settings parsed0;
                    gameState :=
                      {| isStarted := isStarted loading;
                         isLoading := false;
                         turnCount := turnCount loading;
                         settings := settings loading;
                         stats := stats loading;
                         history := history loading;
                         gameOver := gameOver loading;
                         gameWon := gameWon loading;
                         lastSaved := lastSaved loading;
                         infrastructure := infrastructure loading |};
                    saveFound := saveFound app;
                    storedSave := storedSave app |}, session)
            | (session, Throw _) =>
                ({| setupMode := true;
                    userApiKey := userApiKey app;
                    formSettings := settings parsed0;
                    gameState := loading;
                    saveFound := false;
                    storedSave := None |}, session)
            end
        end
  end.

(** ** App.tsx: the initial component state *)

Definition initialGameState : GameState :=
  {| isStarted := false;
     isLoading := false;
     turnCount := 0;
     settings :=
       {| projectName := "Bitcoin"; ticker := "BTC";
          founderName := "Satoshi"; language := en |};
     stats := INITIAL_STATS;
     history := [];
     gameOver := false;
     gameWon := false;
     lastSaved := None;
     infrastructure := INITIAL_GRID |}.

Definition initialApp : App :=
  {| setupMode := true;
     userApiKey := EmptyString;
     formSettings :=
       {| projectName := EmptyString; ticker := EmptyString;
          founderName := EmptyString; language := fa |};
     gameState := initialGameState;
     saveFound := false;
     storedSave := None |}.

(** ** The merge of a turn over the numbers [JSON.parse] can return

    A numeric literal of the reply that lies outside the range of a double
    is parsed to an infinity, and [processTurn] hands the parsed numbers
    over unchecked.  This module repeats the merge of [handleSendMessage]
    over numbers that may be infinite or NaN.  A finite number is an
    integer, as elsewhere in this file, and a sum of finite numbers is
    exact; a double rounds such a sum from 2 ^ 53 on, which moves it but
    never makes it NaN. *)

Module Js.

Inductive number : Type :=
| Fin (z : Z)
| PosInf
| NegInf
| NaN.

(** [a + b] *)
Definition add (a b : number) : number :=
  match a, b with
  | NaN, _ | _, NaN => NaN
  | Fin x, Fin y => Fin (x + y)
  | PosInf, NegInf | NegInf, PosInf => NaN
  | PosInf, _ | _, PosInf => PosInf
  | NegInf, _ | _, NegInf => NegInf
  end.

(** [a <= b]: every comparison with NaN is false. *)
Definition le (a b : number) : bool :=
  match a, b with
  | NaN, _ | _, NaN => false
  | NegInf, _ | _, PosInf => true
  | Fin x, Fin y => x <=? y
  | PosInf, _ | _, NegInf => false
  end.

(** [Math.max (a, b)] and [Math.min (a, b)]: NaN if an argument is NaN. *)
Definition Math_max (a b : number) : number :=
  match a, b with
  | NaN, _ | _, NaN => NaN
  | _, _ => if le a b then b else a
  end.

Definition Math_min (a b : number) : number :=
  match a, b with
  | NaN, _ | _, NaN => NaN
  | _, _ => if le a b then a else b
  end.

(** [x || 0]: [undefined], 0 and NaN are falsy. *)
Definition orZero (x : option number) : number :=
  match x with
  | None | Some NaN => Fin 0
  | Some v => v
  end.

Record GameStats : Type := mkStats {
  funds : number;
  users : number;
  security : number;
  hype : number;
  techLevel : number;
  decentralization : number;
  era : number
}.

Record StatsUpdate : Type := mkUpdate {
  funds_change : option number;
  users_change : option number;
  security_change : option number;
  hype_change : option number;
  tech_level_change : option number;
  decentralization_change : option number
}.

(** [newStats] of [handleSendMessage]; the passive effects are sums the code
    makes itself, hence integers. *)
Definition newStats (s : GameStats) (u : StatsUpdate) (e : PartialStats)
    : GameStats :=
  {| funds :=
       Math_max (Fin 0)
         (add (add (funds s) (orZero (funds_change u))) (Fin (or0 (p_funds e))));
     users := Math_max (Fin 0) (add (users s) (orZero (users_change u)));
     security :=
       Math_min (Fin 100)
         (Math_max (Fin 0)
            (add (add (security s) (orZero (security_change u)))
               (Fin (or0 (p_security e)))));
     hype :=
       Math_min (Fin 100)
         (Math_max (Fin 0)
            (add (add (hype s) (orZero (hype_change u)))
               (Fin (or0 (p_hype e)))));
     techLevel :=
       Math_min (Fin 100)
         (Math_max (Fin 0) (add (techLevel s) (orZero (tech_level_change u))));
     decentralization :=
       Math_min (Fin 100)
         (Math_max (Fin 0)
            (add (decentralization s) (orZero (decentralization_change u))));
     era := era s |}.

(** [0 <= x && x <= 100] *)
Definition percent (x : number) : bool := le (Fin 0) x && le x (Fin 100).

(** The invariant of the stat vector, with the comparisons of JavaScript. *)
Definition inBounds (s : GameStats) : Prop :=
  percent (security s) = true /\ percent (hype s) = true /\
  percent (techLevel s) = true /\ percent (decentralization s) = true /\
  le (Fin 0) (funds s) = true /\ le (Fin 0) (users s) = true.

Definition isFin (x : number) : bool :=
  match x with Fin _ => true | _ => false end.

(** The six stats are finite. *)
Definition finiteStats (s : GameStats) : bool :=
  isFin (funds s) && isFin (users s) && isFin (security s) && isFin (hype s)
  && isFin (techLevel s) && isFin (decentralization s).

End Js.

(** The integer stats and updates of the rest of the file, as numbers. *)
Definition numberStats (s : GameStats) : Js.GameStats :=
  {| Js.funds := Js.Fin (funds s); Js.users := Js.Fin (users s);
     Js.security := Js.Fin (security s); Js.hype := Js.Fin (hype s);
     Js.techLevel := Js.Fin (techLevel s);
     Js.decentralization := Js.Fin (decentralization s);
     Js.era := Js.Fin (era s) |}.

Definition numberUpdate (u : StatsUpdate) : Js.StatsUpdate :=
  {| Js.funds_change := Js.Fin <$> funds_change u;
     Js.users_change := Js.Fin <$> users_change u;
     Js.security_change := Js.Fin <$> security_change u;
     Js.hype_change := Js.Fin <$> hype_change u;
     Js.tech_level_change := Js.Fin <$> tech_level_change u;
     Js.decentralization_change := Js.Fin <$> decentralization_change u |}.

(** ** The specification's side: bounds, [applyDelta], per-type contributions *)

(** The invariant of the stat vector: four fields within [0, 100], funds and
    users not negative. *)
Definition inBounds (s : GameStats) : Prop :=
  0 <= security s <= 100 /\ 0 <= hype s <= 100 /\
  0 <= techLevel s <= 100 /\ 0 <= decentralization s <= 100 /\
  0 <= funds s /\ 0 <= users s.

Definition clamp (lo hi x : Z) : Z := Z.min hi (Z.max lo x).

(** The oracle's [stats_update] as a delta on the stat vector. *)
Definition oracleDelta (u : StatsUpdate) : PartialStats :=
  {| p_funds := funds_change u; p_users := users_change u;
     p_security := security_change u; p_hype := hype_change u;
     p_techLevel := tech_level_change u;
     p_decentralization := decentralization_change u; p_era := None |}.

(** Field by field sum of two deltas, an unspecified field counting 0. *)
Definition sumDelta (a b : PartialStats) : PartialStats :=
  {| p_funds := Some (or0 (p_funds a) + or0 (p_funds b));
     p_users := Some (or0 (p_users a) + or0 (p_users b));
     p_security := Some (or0 (p_security a) + or0 (p_security b));
     p_hype := Some (or0 (p_hype a) + or0 (p_hype b));
     p_techLevel := Some (or0 (p_techLevel a) + or0 (p_techLevel b));
     p_decentralization :=
       Some (or0 (p_decentralization a) + or0 (p_decentralization b));
     p_era := None |}.

(** [applyDelta] as the specification words it: [max (0, _)] on funds and
    users, [clamp (_, 0, 100)] on the four bounded fields. *)
Definition applyDelta (current : GameStats) (delta : PartialStats)
    : GameStats :=
  {| funds := Z.max 0 (funds current + or0 (p_funds delta));
     users := Z.max 0 (users current + or0 (p_users delta));
     security := clamp 0 100 (security current + or0 (p_security delta));
     hype := clamp 0 100 (hype current + or0 (p_hype delta));
     techLevel := clamp 0 100 (techLevel current + or0 (p_techLevel delta));
     decentralization :=
       clamp 0 100
         (decentralization current + or0 (p_decentralization delta));
     era := era current |}.

(** The two orders of application the specification contrasts. *)
Definition sumThenClamp (s : GameStats) (oracle passive : PartialStats)
    : GameStats :=
  applyDelta s (sumDelta oracle passive).

Definition clampPerSource (s : GameStats) (oracle passive : PartialStats)
    : GameStats :=
  applyDelta (applyDelta s oracle) passive.

(** The fixed per-turn contribution of a module type. *)
Definition fundsPerTurn (t : ModuleType) : Z :=
  match t with Miner => 150 | _ => 0 end.
Definition securityPerTurn (t : ModuleType) : Z :=
  match t with Validator => 1 | _ => 0 end.
Definition hypePerTurn (t : ModuleType) : Z :=
  match t with Rpc => 1 | _ => 0 end.

Definition sumZ (l : list Z) : Z := foldr Z.add 0 l.

Definition passive (types : list ModuleType) : PartialStats :=
  {| p_funds := Some (sumZ (map fundsPerTurn types));
     p_users := None;
     p_security := Some (sumZ (map securityPerTurn types));
     p_hype := Some (sumZ (map hypePerTurn types));
     p_techLevel := Some 0;
     p_decentralization := None;
     p_era := None |}.

(** The accumulator of the [forEach] loop of [infraEffects]: three running
    sums. *)
Definition effectsAcc (f s h : Z) : PartialStats :=
  {| p_funds := Some f; p_users := None; p_security := Some s;
     p_hype := Some h; p_techLevel := Some 0;
     p_decentralization := None; p_era := None |}.

(** The types of the modules a grid holds, in slot order. *)
Fixpoint installedTypes (grid : JsArray GridSlot) : list ModuleType :=
  match grid with
  | [] => []
  | Val slot :: grid' =>
      match module slot with
      | Some m => type m :: installedTypes grid'
      | None => installedTypes grid'
      end
  | _ :: grid' => installedTypes grid'
  end.

Definition isUndefined {A : Type} (e : Elem A) : bool :=
  match e with Undefined => true | _ => false end.

(** No element of the array is [undefined]. *)
Definition allDefined {A : Type} (a : JsArray A) : bool :=
  forallb (fun e => negb (isUndefined e)) a.

(** The module held at an index of the grid, if any. *)
Definition moduleAt (grid : JsArray GridSlot) (i : Z)
    : option InfrastructureModule :=
  if i <? 0 then None
  else
    match grid !! Z.to_nat i with
    | Some (Val slot) => module slot
    | _ => None
    end.

Definition occupied (grid : JsArray GridSlot) (i : Z) : bool :=
  bool_decide (is_Some (moduleAt grid i)).


(** ** components/Infrastructure.tsx *)

Module Infrastructure.

(** The component's own copy of the catalogue. *)
Definition AVAILABLE_MODULES (t : ModuleType) : ModuleDef :=
  match t with
  | Miner =>
      {| type := Miner; name := "ASIC Miner X1"; cost := 1500;
         maintenance := 100; description := "Generates funds via PoW.";
         statsEffect :=
           {| p_funds := Some 500; p_users := None; p_security := None;
              p_hype := None; p_techLevel := None;
              p_decentralization := Some (-2); p_era := None |} |}
  | Validator =>
      {| type := Validator; name := "Validator Node"; cost := 2000;
         maintenance := 50; description := "Secures transactions.";
         statsEffect :=
           {| p_funds := None; p_users := None; p_security := Some 5;
              p_hype := None; p_techLevel := None;
              p_decentralization := Some 2; p_era := None |} |}
  | Rpc =>
      {| type := Rpc; name := "RPC Cluster"; cost := 3000;
         maintenance := 200; description := "Boosts network speed.";
         statsEffect :=
           {| p_funds := None; p_users := None; p_security := None;
              p_hype := Some 4; p_techLevel := Some 2;
              p_decentralization := None; p_era := None |} |}
  | Firewall =>
      {| type := Firewall; name := "Quantum Firewall"; cost := 5000;
         maintenance := 300; description := "Hardened security layer.";
         statsEffect :=
           {| p_funds := None; p_users := None; p_security := Some 10;
              p_hype := None; p_techLevel := None;
              p_decentralization := None; p_era := None |} |}
  end.

(** [stats.funds >= module.cost] *)
Definition canAfford (stats : GameStats) (key : ModuleType) : bool :=
  cost (AVAILABLE_MODULES key) <=? funds stats.

(** [onDragStart = {(e) => canAfford && handleDragStart (e, key)}]: what the
    drag carries under 'moduleType', if it starts. *)
Definition handleDragStart (stats : GameStats) (key : ModuleType)
    : option ModuleType :=
  if canAfford stats key then Some key else None.

(** [handleDrop]: [dragged] is what [getData ('moduleType')] returns, [None]
    for the empty string. *)
Definition handleDrop {S : Type} (onPurchase : Z -> ModuleType -> S -> S)
    (dragged : option ModuleType) (slotId : Z) (s : S) : S :=
  match dragged with
  | Some t => onPurchase slotId t s
  | None => s
  end.

(** [grid.filter (s => s.module)] *)
Definition filterOccupied (grid : JsArray GridSlot) : Result (list GridSlot) :=
  forEach
    (fun (acc : list GridSlot) (slot : option GridSlot) =>
       match slot with
       | None => Throw TypeError
       | Some slot =>
           match module slot with
           | Some _ => Return (acc ++ [slot])
           | None => Return acc
           end
       end)
    grid [].

(** The number of the CAPACITY display: [grid.filter (s => s.module).length] *)
Definition capacity (grid : JsArray GridSlot) : Result nat :=
  slots ← filterOccupied grid; Return (length slots).

(** The slot ids that the cells rendered by [grid.map] hand to [handleDrop]. *)
Definition dropTargets (grid : JsArray GridSlot) : Result (list Z) :=
  forEach
    (fun (acc : list Z) (slot : option GridSlot) =>
       match slot with
       | None => Throw TypeError
       | Some slot => Return (acc ++ [slot_id slot])
       end)
    grid [].

(** The slot ids of the cells that render an UNPLUG button. *)
Definition unplugTargets (grid : JsArray GridSlot) : Result (list Z) :=
  slots ← filterOccupied grid; Return (map slot_id slots).

End Infrastructure.

(** ** components/Terminal.tsx *)

#[global] Instance EventId_eq_dec : EqDecision EventId.
Proof. solve_decision. Defined.

Module Terminal.

(** [handleSubmit]: the message handed to [onSendMessage], if any, and the
    content of the input box afterwards.  [trim] is [String.prototype.trim]. *)
Definition handleSubmit (trim : string -> string) (input : string)
    (isLoading gameOver gameWon : bool) : option string * string :=
  if bool_decide (trim input = EmptyString) || isLoading || gameOver || gameWon
  then (None, input)
  else (Some input, EmptyString).

Definition handleSuggestionClick (suggestion : string)
    (isLoading gameOver gameWon : bool) : option string :=
  if isLoading || gameOver || gameWon then None else Some suggestion.

(** The suggestion buttons the log renders, in order: the choices of every
    event that has some and whose id is the id of the last event, unless a
    turn is pending or the game has ended. *)
Definition suggestionButtons (history : list GameEvent)
    (isLoading gameOver gameWon : bool) : list string :=
  match last history with
  | None => []
  | Some lastEvent =>
      flat_map
        (fun event =>
           match ev_choices event with
           | Some cs =>
               if (0 <? length cs)%nat
                  && bool_decide (ev_id event = ev_id lastEvent)
                  && negb isLoading && negb gameOver && negb gameWon
               then cs else []
           | None => []
           end)
        history
  end.

End Terminal.

(** ** App.tsx: the handlers as the components call them *)

(** [<Terminal onSendMessage={handleSendMessage} isLoading={gameState.isLoading}
    gameOver={gameState.gameOver} gameWon={gameState.gameWon} />]: a
    submission of the form. *)
Definition terminalSubmit (trim : string -> string) (now : Z)
    (gameState : GameState) (input : string)
    (processTurnResult : Result GeminiResponse) : GameState * Result unit :=
  match
    (Terminal.handleSubmit trim input (isLoading gameState)
       (gameOver gameState) (gameWon gameState)).1
  with
  | Some message => handleSendMessage now gameState message processTurnResult
  | None => (gameState, Return ())
  end.

(** A click on a suggestion button. *)
Definition terminalSuggestion (now : Z) (gameState : GameState)
    (suggestion : string) (processTurnResult : Result GeminiResponse)
    : GameState * Result unit :=
  match
    Terminal.handleSuggestionClick suggestion (isLoading gameState)
      (gameOver gameState) (gameWon gameState)
  with
  | Some message => handleSendMessage now gameState message processTurnResult
  | None => (gameState, Return ())
  end.

(** [<Infrastructure stats={gameState.stats} onPurchase={handlePurchaseModule} />]:
    a module dragged from the shop and dropped on a cell. *)
Definition dragAndDrop (now : Z) (gameState : GameState) (key : ModuleType)
    (slotId : Z) : GameState :=
  Infrastructure.handleDrop
    (fun slotId t gs => handlePurchaseModule now gs slotId t)
    (Infrastructure.handleDragStart (stats gameState) key) slotId gameState.

(** ** App.tsx: persistence *)

(** The effect that saves the game on a change of state.  The record kept is
    what [JSON.parse] makes of [JSON.stringify (saveData)]: the state with
    [lastSaved] set, where a hole of the array has become [null], which
    every read the program makes treats like [undefined]. *)
Definition saveEffect (nowISO : string) (app : App) : App :=
  let gs := gameState app in
  if isStarted gs && negb (isLoading gs) && (0 <? length (history gs))%nat
  then
    {| setupMode := setupMode app;
       userApiKey := userApiKey app;
       formSettings := formSettings app;
       gameState := gameState app;
       saveFound := saveFound app;
       storedSave :=
         Some (Parses
                 {| isStarted := isStarted gs;
                    isLoading := isLoading gs;
                    turnCount := turnCount gs;
                    settings := settings gs;
                    stats := stats gs;
                    history := history gs;
                    gameOver := gameOver gs;
                    gameWon := gameWon gs;
                    lastSaved := Some nowISO;
                    infrastructure := Some (spread (infrastructure gs)) |}) |}
  else app.

(** [handleDeleteSave]; [confirmed] is the answer to [confirm (...)]. *)
Definition handleDeleteSave (confirmed : bool) (app : App) : App :=
  if confirmed then
    {| setupMode := setupMode app;
       userApiKey := userApiKey app;
       formSettings := formSettings app;
       gameState := gameState app;
       saveFound := false;
       storedSave := None |}
  else app.

(** The effect run on mount; [savedKey] is [localStorage.getItem (API_KEY_STORAGE)]. *)
Definition mountEffect (savedKey : option string) (app : App) : App :=
  {| setupMode := setupMode app;
     userApiKey :=
       match savedKey with
       | Some k => if decide (k = EmptyString) then userApiKey app else k
       | None => userApiKey app
       end;
     formSettings := formSettings app;
     gameState := gameState app;
     saveFound :=
       match storedSave app with
       | Some _ => true
       | None => saveFound app
       end;
     storedSave := storedSave app |}.

(** [saveApiKey]: the new component state and the item stored under
    [API_KEY_STORAGE]. *)
Definition saveApiKey (key : string) (app : App) : App * option string :=
  ({| setupMode := setupMode app;
      userApiKey := key;
      formSettings := formSettings app;
      gameState := gameState app;
      saveFound := saveFound app;
      storedSave := storedSave app |}, Some key).

(** ** App.tsx with services/geminiService.ts *)

(** [handleSendMessage] with the call of [processTurn] it makes.  The cast of
    the parsed reply to [GeminiResponse] is followed when the value has the
    shape of the interface; what the handler does with any other value is
    not part of this embedding ([None]). *)
Definition sendTurn (now : Z) (chatSession : option Chat)
    (gameState : GameState) (message : string)
    : option (GameState * Result unit) :=
  match infraEffects (infrastructure gameState) with
  | Throw e => Some (handleSendMessage now gameState message (Throw e))
  | Return _ =>
      match
        processTurn chatSession message (stats gameState)
          (infrastructure gameState)
      with
      | Throw e => Some (handleSendMessage now gameState message (Throw e))
      | Return v =>
          match asGeminiResponse v with
          | Some response =>
              Some (handleSendMessage now gameState message (Return response))
          | None => None
          end
      end
  end.

(** [handleStartGame] with the call of [initializeGame] it makes; the cast as
    in [sendTurn]. *)
Definition startGame (now : Z) (create : ChatFactory)
    (chatSession : option Chat) (app : App) (eraOverride : option Z)
    (keepStats : bool) : option (App * option Chat) :=
  if formIncomplete (formSettings app) then Some (app, chatSession)
  else if decide (getEffectiveApiKey app = EmptyString)
  then Some (app, chatSession)
  else
    let start := startingStats (gameState app) eraOverride keepStats in
    match
      initializeGame create chatSession (getEffectiveApiKey app)
        (formSettings app) (Some (era start))
    with
    | (session, Throw e) =>
        Some (handleStartGame now app eraOverride keepStats (Throw e), session)
    | (session, Return v) =>
        match asGeminiResponse v with
        | Some response =>
            Some (handleStartGame now app eraOverride keepStats
                    (Return response), session)
        | None => None
        end
    end.

(** ** App.tsx: what the rendered page lets the player do

    One constructor per control of the page; an action carries what the
    environment contributes to its handler (the clock, how the oracle's
    promise settles).  The promise settles at the type its signature
    declares: an action stands for a run in which the oracle's reply, if
    any, follows the response schema, with integer deltas.  A reply that
    [JSON.parse] accepts but that does not follow the schema, or whose
    numbers are infinite, is not an action.  [act] runs the handler of an
    action to completion, under the condition the render code puts on the
    control: the setup screen is rendered when [setupMode] holds, the game
    screen otherwise.  The view toggle inside the game screen is not
    tracked, so both views count as open, and an edit of the form may set
    any settings. *)

Inductive Action : Type :=
| EditSettings (s : GameSettings)
| EnterApiKey (key : string)
| ClickStart (now : Z) (init : Result GeminiResponse)
| ClickLoad (create : ChatFactory)
| ClickDelete (confirmed : bool)
| ClickSetup
| Submit (now : Z) (input : string) (settled : Result GeminiResponse)
| ClickSuggestion (now : Z) (suggestion : string)
    (settled : Result GeminiResponse)
| DragDrop (now : Z) (key : ModuleType) (cell : nat)
| ClickUnplug (cell : nat)
| ClickFork (now : Z) (init : Result GeminiResponse)
| RunSaveEffect (nowISO : string).

Definition setGameState (app : App) (gs : GameState) : App :=
  {| setupMode := setupMode app;
     userApiKey := userApiKey app;
     formSettings := formSettings app;
     gameState := gs;
     saveFound := saveFound app;
     storedSave := storedSave app |}.

Definition setSetupMode (app : App) (b : bool) : App :=
  {| setupMode := b;
     userApiKey := userApiKey app;
     formSettings := formSettings app;
     gameState := gameState app;
     saveFound := saveFound app;
     storedSave := storedSave app |}.

Definition setSettings (app : App) (s : GameSettings) : App :=
  {| setupMode := setupMode app;
     userApiKey := userApiKey app;
     formSettings := s;
     gameState := gameState app;
     saveFound := saveFound app;
     storedSave := storedSave app |}.

Definition act (trim : string -> string) (a : Action) (app : App) : App :=
  let gs := gameState app in
  match a with
  | EditSettings s => if setupMode app then setSettings app s else app
  | EnterApiKey key => if setupMode app then (saveApiKey key app).1 else app
  | ClickStart now init =>
      if setupMode app then handleStartGame now app None false init else app
  | ClickLoad create =>
      if setupMode app && saveFound app
      then (handleLoadGame create None app).1 else app
  | ClickDelete confirmed =>
      if setupMode app && saveFound app
      then handleDeleteSave confirmed app else app
  | ClickSetup => if setupMode app then app else setSetupMode app true
  | Submit now input settled =>
      if setupMode app then app
      else setGameState app (terminalSubmit trim now gs input settled).1
  | ClickSuggestion now suggestion settled =>
      if setupMode app then app
      else
        if bool_decide
             (suggestion ∈
                Terminal.suggestionButtons (history gs) (isLoading gs)
                  (gameOver gs) (gameWon gs))
        then setGameState app (terminalSuggestion now gs suggestion settled).1
        else app
  | DragDrop now key cell =>
      if setupMode app then app
      else
        match Infrastructure.dropTargets (infrastructure gs) with
        | Return ids =>
            match ids !! cell with
            | Some slotId => setGameState app (dragAndDrop now gs key slotId)
            | None => app
            end
        | Throw _ => app
        end
  | ClickUnplug cell =>
      if setupMode app then app
      else
        match Infrastructure.unplugTargets (infrastructure gs) with
        | Return ids =>
            match ids !! cell with
            | Some slotId => setGameState app (handleRemoveModule gs slotId)
            | None => app
            end
        | Throw _ => app
        end
  | ClickFork now init =>
      if setupMode app then app
      else
        if gameWon gs && negb (gameOver gs)
        then forkAndEvolve now app init else app
  | RunSaveEffect nowISO => saveEffect nowISO app
  end.

Definition run (trim : string -> string) (actions : list Action) (app : App)
    : App :=
  fold_left (fun app a => act trim a app) actions app.

(** ** Invariants of the running game *)

(** A grid as [INITIAL_GRID] shapes it: 12 cells, each a slot whose id is its
    index. *)
Definition wellFormedGrid (grid : JsArray GridSlot) : Prop :=
  length grid = 12%nat /\
  forall i : nat,
    (i < 12)%nat ->
    exists m, grid !! i = Some (Val {| slot_id := Z.of_nat i; module := m |}).

(** The four percentages within range, users not negative, and a positive
    era. *)
Definition boundedFields (s : GameStats) : Prop :=
  0 <= security s <= 100 /\ 0 <= hype s <= 100 /\
  0 <= techLevel s <= 100 /\ 0 <= decentralization s <= 100 /\
  0 <= users s /\ 1 <= era s.

Definition goodState {I : Type} (grid : I -> JsArray GridSlot)
    (gs : GameStateOf I) : Prop :=
  ~ (gameOver gs = true /\ gameWon gs = true) /\
  wellFormedGrid (grid (infrastructure gs)) /\
  boundedFields (stats gs).

Definition goodApp (app : App) : Prop :=
  goodState (fun g => g) (gameState app) /\
  forall parsed,
    storedSave app = Some (Parses parsed) ->
    goodState (default INITIAL_GRID) parsed.

(** Every element of the array is a value. *)
Definition allVal {A : Type} (a : JsArray A) : bool :=
  forallb (fun e => match e with Val _ => true | _ => false end) a.

(** The update with no change. *)
Definition noUpdate : StatsUpdate :=
  {| funds_change := None; users_change := None; security_change := None;
     hype_change := None; tech_level_change := None;
     decentralization_change := None |}.

(** The elements of an array that are values, in order. *)
Fixpoint values {A : Type} (a : JsArray A) : list A :=
  match a with
  | [] => []
  | Val x :: a' => x :: values a'
  | _ :: a' => values a'
  end.

(** The modules a grid holds, in slot order. *)
Definition installedModules (grid : JsArray GridSlot)
    : list InfrastructureModule :=
  omap module (values grid).

(** 1 for a slot that holds a module, 0 for an empty one. *)
Definition occ (slot : GridSlot) : nat :=
  match module slot with Some _ => 1%nat | None => 0%nat end.

(** * Properties *)

(** ** Passive effects *)

Section PassiveEffects.

Lemma infraCallback_acc (f s h : Z) (slot : GridSlot) :
  infraCallback (effectsAcc f s h) (Some slot) =
  match module slot with
  | Some m =>
      Return (effectsAcc (f + fundsPerTurn (type m))
                (s + securityPerTurn (type m)) (h + hypePerTurn (type m)))
  | None => Return (effectsAcc f s h)
  end.
Proof.
  unfold infraCallback. destruct (module slot) as [m|]; [|reflexivity].
  unfold effectsAcc, add_funds, add_security, add_hype, or0.
  destruct (type m); simpl; rewrite ?Z.add_0_r; reflexivity.
Qed.

Lemma effectsAcc_ext (f s h f' s' h' : Z) :
  f = f' -> s = s' -> h = h' ->
  @Return PartialStats (effectsAcc f s h) = Return (effectsAcc f' s' h').
Proof. congruence. Qed.

Lemma forEach_infraCallback (grid : JsArray GridSlot) :
  forall f s h : Z,
    forEach infraCallback grid (effectsAcc f s h) =
    if allDefined grid
    then Return (effectsAcc
                   (f + sumZ (map fundsPerTurn (installedTypes grid)))
                   (s + sumZ (map securityPerTurn (installedTypes grid)))
                   (h + sumZ (map hypePerTurn (installedTypes grid))))
    else Throw TypeError.
Proof.
  induction grid as [|e grid IH]; intros f s h.
  - simpl. apply effectsAcc_ext; lia.
  - destruct e as [| |slot].
    + simpl. apply IH.
    + reflexivity.
    + cbn [forEach]. rewrite infraCallback_acc.
      destruct (module slot) as [m|] eqn:Hm.
      * cbn [mbind Result_bind]. rewrite IH.
        cbn [allDefined forallb isUndefined negb andb installedTypes].
        rewrite Hm. fold (allDefined grid).
        destruct (allDefined grid); [|reflexivity].
        apply effectsAcc_ext; unfold sumZ; simpl; lia.
      * cbn [mbind Result_bind]. rewrite IH.
        cbn [allDefined forallb isUndefined negb andb installedTypes].
        rewrite Hm. reflexivity.
Qed.

(** What the loop computes, on every array. *)
Lemma infraEffects_spec (grid : JsArray GridSlot) :
  infraEffects grid =
  if allDefined grid then Return (passive (installedTypes grid))
  else Throw TypeError.
Proof.
  unfold infraEffects.
  change infraEffects0 with (effectsAcc 0 0 0).
  rewrite forEach_infraCallback.
  destruct (allDefined grid); reflexivity.
Qed.

Lemma sumZ_Permutation (l l' : list Z) : l ≡ₚ l' -> sumZ l = sumZ l'.
Proof.
  induction 1; simpl; lia.
Qed.

Lemma passive_Permutation (ts ts' : list ModuleType) :
  ts ≡ₚ ts' -> passive ts = passive ts'.
Proof.
  intros H. unfold passive.
  rewrite (sumZ_Permutation _ _ (Permutation_map fundsPerTurn H)).
  rewrite (sumZ_Permutation _ _ (Permutation_map securityPerTurn H)).
  rewrite (sumZ_Permutation _ _ (Permutation_map hypePerTurn H)).
  reflexivity.
Qed.

End PassiveEffects.

(** C6: on a grid all of whose elements are defined, the passive effect of a
    turn is the sum, over the installed modules, of the fixed contribution of
    their type (miner 150 funds, validator 1 security, rpc 1 hype, firewall
    nothing); two grids that hold the same multiset of module types have the
    same effect; a grid holding two miners and a validator yields funds 300
    and security 1 (hype and techLevel 0). *)
Theorem passive_effects_sum (grid : JsArray GridSlot) :
  allDefined grid = true ->
  infraEffects grid = Return (passive (installedTypes grid)) /\
  (fundsPerTurn Miner = 150 /\ securityPerTurn Validator = 1 /\
   hypePerTurn Rpc = 1 /\
   fundsPerTurn Firewall = 0 /\ securityPerTurn Firewall = 0 /\
   hypePerTurn Firewall = 0) /\
  (forall grid' : JsArray GridSlot,
     allDefined grid' = true ->
     installedTypes grid' ≡ₚ installedTypes grid ->
     infraEffects grid' = infraEffects grid) /\
  (installedTypes grid ≡ₚ [Miner; Miner; Validator] ->
   infraEffects grid = Return (effectsAcc 300 1 0)).
Proof.
  intros Hdef. rewrite infraEffects_spec, Hdef.
  split; [reflexivity|]. split; [repeat split|]. split.
  - intros grid' Hdef' Hperm. rewrite infraEffects_spec, Hdef'.
    f_equal. apply passive_Permutation, Hperm.
  - intros Hperm. f_equal.
    rewrite (passive_Permutation _ _ Hperm). reflexivity.
Qed.

Lemma passive_effects_sum_witness :
  let miner := {| slot_id := 3; module := Some (installed 17 Miner) |} in
  let validator := {| slot_id := 0; module := Some (installed 5 Validator) |} in
  let free := {| slot_id := 1; module := None |} in
  infraEffects [Val validator; Val free; Val miner; Val miner] =
    Return (effectsAcc 300 1 0) /\
  infraEffects [Val miner; Val validator; Val miner; Val free] =
    infraEffects [Val validator; Val free; Val miner; Val miner].
Proof.
  intros miner validator free.
  destruct (passive_effects_sum [Val validator; Val free; Val miner; Val miner]
              eq_refl) as (_ & _ & Horder & Hexample).
  split.
  - apply Hexample. simpl.
    change [Validator; Miner; Miner] with ([Validator] ++ [Miner; Miner]).
    change [Miner; Miner; Validator] with ([Miner; Miner] ++ [Validator]).
    apply Permutation_app_comm.
  - apply Horder; [reflexivity|]. simpl. apply perm_swap.
Defined.

(** ** The merge of a turn *)

Section Merge.

Lemma clamp_bounds (x : Z) : 0 <= Z.min 100 (Z.max 0 x) <= 100.
Proof. lia. Qed.

Lemma newStats_inBounds (s : GameStats) (u : StatsUpdate) (e : PartialStats) :
  inBounds (newStats s u e).
Proof.
  unfold inBounds, newStats; simpl.
  repeat split; try apply clamp_bounds; apply Z.le_max_l.
Qed.

(** The state a turn ends in when the loop over the grid completes and
    [processTurn] resolves. *)
Lemma handleSendMessage_resolved (now : Z) (gs : GameState)
    (message : string) (response : GeminiResponse) (e : PartialStats) :
  infraEffects (infrastructure gs) = Return e ->
  exists gs' : GameState,
    handleSendMessage now gs message (Return response) = (gs', Return ()) /\
    stats gs' = newStats (stats gs) (stats_update response) e /\
    gameOver gs' = bool_decide (event_type response = game_over) /\
    gameWon gs' = bool_decide (event_type response = victory) /\
    turnCount gs' = turnCount gs + 1.
Proof.
  intros He. unfold handleSendMessage. rewrite He.
  eexists; split; [reflexivity|]. simpl. auto.
Qed.

(** The handler only throws when the grid has an [undefined] element. *)
Lemma handleSendMessage_returns (now : Z) (gs : GameState)
    (message : string) (pt : Result GeminiResponse) :
  allDefined (infrastructure gs) = true ->
  (handleSendMessage now gs message pt).2 = Return ().
Proof.
  intros Hdef. unfold handleSendMessage.
  rewrite infraEffects_spec, Hdef. destruct pt; reflexivity.
Qed.

Lemma newStats_sumThenClamp (s : GameStats) (u : StatsUpdate)
    (grid : JsArray GridSlot) (e : PartialStats) :
  infraEffects grid = Return e ->
  newStats s u e = sumThenClamp s (oracleDelta u) e.
Proof.
  rewrite infraEffects_spec. destruct (allDefined grid); [|discriminate].
  intros [= <-].
  unfold newStats, sumThenClamp, applyDelta, sumDelta, clamp, or0; simpl.
  f_equal; lia.
Qed.

End Merge.

Section Numbers.

Lemma max0_nonneg (x : Js.number) :
  x <> Js.NaN -> Js.le (Js.Fin 0) (Js.Math_max (Js.Fin 0) x) = true.
Proof.
  destruct x as [z| | |]; intros Hx; try reflexivity; [|contradiction].
  unfold Js.Math_max, Js.le. destruct (0 <=? z) eqn:Hz; [exact Hz|reflexivity].
Qed.

Lemma clamp_percent (x : Js.number) :
  x <> Js.NaN ->
  Js.percent (Js.Math_min (Js.Fin 100) (Js.Math_max (Js.Fin 0) x)) = true.
Proof.
  destruct x as [z| | |]; intros Hx; try reflexivity; [|contradiction].
  unfold Js.percent, Js.Math_min, Js.Math_max, Js.le.
  destruct (0 <=? z) eqn:Hz; [|reflexivity].
  destruct (100 <=? z) eqn:Hz'; [reflexivity|].
  rewrite Hz. cbn [andb]. apply Z.leb_le. apply Z.leb_gt in Hz'. lia.
Qed.

Lemma orZero_not_nan (x : option Js.number) : Js.orZero x <> Js.NaN.
Proof. destruct x as [[]|]; discriminate. Qed.

Lemma add_fin_not_nan (z : Z) (d : Js.number) :
  d <> Js.NaN -> Js.add (Js.Fin z) d <> Js.NaN.
Proof. destruct d; intros H; try discriminate; contradiction. Qed.

Lemma add_fin_r_not_nan (x : Js.number) (p : Z) :
  x <> Js.NaN -> Js.add x (Js.Fin p) <> Js.NaN.
Proof. destruct x; intros H; try discriminate; contradiction. Qed.

Lemma percent_fin (x : Js.number) :
  Js.percent x = true -> exists z : Z, x = Js.Fin z.
Proof. destruct x; try discriminate. eexists; reflexivity. Qed.

Lemma isFin_fin (x : Js.number) :
  Js.isFin x = true -> exists z : Z, x = Js.Fin z.
Proof. destruct x; try discriminate. eexists; reflexivity. Qed.

(** The sum of an unbounded stat and its deltas is NaN exactly when the stat
    is at +Infinity and the oracle's delta is -Infinity. *)
Lemma unbounded_sum_nan (x : Js.number) (d : option Js.number) :
  Js.le (Js.Fin 0) x = true ->
  (Js.add x (Js.orZero d) = Js.NaN <-> x = Js.PosInf /\ d = Some Js.NegInf).
Proof.
  destruct x as [z| | |]; try discriminate; intros _;
    destruct d as [[y| | |]|]; cbn; split; try discriminate;
    try (intros [H1 H2]; discriminate); auto.
Qed.

Lemma max0_negative_iff (x : Js.number) :
  Js.le (Js.Fin 0) (Js.Math_max (Js.Fin 0) x) = false <-> x = Js.NaN.
Proof.
  split.
  - intros H. destruct x as [z| | |]; try reflexivity;
      rewrite max0_nonneg in H by discriminate; discriminate H.
  - intros ->. reflexivity.
Qed.

Lemma max0_integer (z : Z) :
  Js.Math_max (Js.Fin 0) (Js.Fin z) = Js.Fin (Z.max 0 z).
Proof.
  unfold Js.Math_max, Js.le. destruct (0 <=? z) eqn:Hz; f_equal; lia.
Qed.

Lemma min100_integer (z : Z) :
  Js.Math_min (Js.Fin 100) (Js.Fin z) = Js.Fin (Z.min 100 z).
Proof.
  unfold Js.Math_min, Js.le. destruct (100 <=? z) eqn:Hz; f_equal; lia.
Qed.

Lemma orZero_integer (x : option Z) : Js.orZero (Js.Fin <$> x) = Js.Fin (or0 x).
Proof. destruct x; reflexivity. Qed.

(** On integers the merge over numbers is the merge over [Z]. *)
Lemma newStats_on_integers (s : GameStats) (u : StatsUpdate) (e : PartialStats) :
  Js.newStats (numberStats s) (numberUpdate u) e = numberStats (newStats s u e).
Proof.
  unfold Js.newStats, numberStats, numberUpdate, newStats.
  cbn [Js.funds Js.users Js.security Js.hype Js.techLevel Js.decentralization
       Js.era Js.funds_change Js.users_change Js.security_change
       Js.hype_change Js.tech_level_change Js.decentralization_change
       funds users security hype techLevel decentralization era].
  rewrite !orZero_integer. cbn [Js.add].
  rewrite !max0_integer, !min100_integer. reflexivity.
Qed.

End Numbers.

(** C1, as the specification states it, fails on extreme deltas.  From the
    initial stats, a reply whose [users_change] is a literal beyond the
    range of a double (parsed to +Infinity) leaves users at +Infinity,
    within bounds; a second reply whose [users_change] parses to -Infinity
    then makes the sum NaN, [Math.max (0, NaN)] is NaN, and NaN is not at
    least 0. *)
Lemma merged_users_become_nan :
  let change (d : Js.number) :=
    {| Js.funds_change := None; Js.users_change := Some d;
       Js.security_change := None; Js.hype_change := None;
       Js.tech_level_change := None; Js.decentralization_change := None |} in
  let first := Js.newStats (numberStats INITIAL_STATS) (change Js.PosInf)
                 infraEffects0 in
  let second := Js.newStats first (change Js.NegInf) infraEffects0 in
  Js.inBounds first /\ Js.users first = Js.PosInf /\
  Js.users second = Js.NaN /\
  Js.le (Js.Fin 0) (Js.users second) = false /\
  ~ Js.inBounds second.
Proof.
  intros change first second.
  split; [repeat split|]. split; [reflexivity|]. split; [reflexivity|].
  split; [reflexivity|].
  intros (_ & _ & _ & _ & _ & H). discriminate H.
Qed.

(** C1, amended: for every current stat vector of finite numbers and every
    pair of deltas, infinite ones included, the merged stats have security,
    hype, techLevel and decentralization within [0, 100] and funds and
    users at least 0.  From any current vector within bounds the four
    bounded fields of the merged stats are within [0, 100] again, and funds
    (users) fails to be at least 0 exactly when it was +Infinity and its
    oracle delta is -Infinity: the merged value is then NaN. *)
Theorem merged_stats_in_bounds_unless_nan (s : Js.GameStats)
    (u : Js.StatsUpdate) (e : PartialStats) :
  let s' := Js.newStats s u e in
  (Js.finiteStats s = true -> Js.inBounds s') /\
  (Js.inBounds s ->
   Js.percent (Js.security s') = true /\ Js.percent (Js.hype s') = true /\
   Js.percent (Js.techLevel s') = true /\
   Js.percent (Js.decentralization s') = true /\
   (Js.le (Js.Fin 0) (Js.funds s') = false <->
    Js.funds s = Js.PosInf /\ Js.funds_change u = Some Js.NegInf) /\
   (Js.le (Js.Fin 0) (Js.users s') = false <->
    Js.users s = Js.PosInf /\ Js.users_change u = Some Js.NegInf)).
Proof.
  intros s'. subst s'. split.
  - unfold Js.finiteStats. intros Hfin.
    repeat (apply andb_prop in Hfin as [Hfin ?]).
    repeat match goal with
           | H : Js.isFin _ = true |- _ => apply isFin_fin in H as [? H]
           end.
    unfold Js.inBounds, Js.newStats.
    cbn [Js.funds Js.users Js.security Js.hype Js.techLevel Js.decentralization].
    repeat match goal with H : _ = Js.Fin _ |- _ => rewrite H; clear H end.
    repeat split;
      first [ apply clamp_percent | apply max0_nonneg ];
      repeat apply add_fin_r_not_nan; apply add_fin_not_nan, orZero_not_nan.
  - intros (Hs & Hh & Ht & Hd & Hf & Hu).
    apply percent_fin in Hs as [zs Hs], Hh as [zh Hh], Ht as [zt Ht],
      Hd as [zd Hd].
    unfold Js.newStats.
    cbn [Js.funds Js.users Js.security Js.hype Js.techLevel Js.decentralization].
    rewrite Hs, Hh, Ht, Hd.
    repeat (split;
            [apply clamp_percent; repeat apply add_fin_r_not_nan;
             apply add_fin_not_nan, orZero_not_nan|]).
    split.
    + rewrite max0_negative_iff.
      rewrite <- (unbounded_sum_nan _ _ Hf).
      destruct (Js.add (Js.funds s) (Js.orZero (Js.funds_change u)));
        cbn; split; congruence.
    + rewrite max0_negative_iff. apply unbounded_sum_nan, Hu.
Qed.

Lemma merged_stats_in_bounds_unless_nan_witness :
  let plunge :=
    {| Js.funds_change := Some Js.NegInf; Js.users_change := Some Js.PosInf;
       Js.security_change := Some Js.NegInf; Js.hype_change := Some Js.PosInf;
       Js.tech_level_change := Some (Js.Fin (-5));
       Js.decentralization_change := None |} in
  let s' := Js.newStats (numberStats INITIAL_STATS) plunge (effectsAcc 150 1 0) in
  Js.inBounds s' /\
  s' =
    {| Js.funds := Js.Fin 0; Js.users := Js.PosInf; Js.security := Js.Fin 0;
       Js.hype := Js.Fin 100; Js.techLevel := Js.Fin 5;
       Js.decentralization := Js.Fin 0; Js.era := Js.Fin 1 |}.
Proof.
  intros plunge s'.
  split; [|reflexivity].
  apply (merged_stats_in_bounds_unless_nan (numberStats INITIAL_STATS) plunge
           (effectsAcc 150 1 0)).
  reflexivity.
Defined.

(** C2: the stats a resolved turn commits are, field by field, the current
    value plus the oracle's delta plus the passive delta, bounded once after
    the sum; bounding after each source is a different function, and the code
    does not compute it. *)
Theorem merge_sums_then_clamps :
  (forall (now : Z) (gs : GameState) (message : string)
          (response : GeminiResponse) (e : PartialStats),
     infraEffects (infrastructure gs) = Return e ->
     stats (handleSendMessage now gs message (Return response)).1 =
       sumThenClamp (stats gs) (oracleDelta (stats_update response)) e) /\
  (exists (gs : GameState) (response : GeminiResponse) (e : PartialStats),
     infraEffects (infrastructure gs) = Return e /\
     clampPerSource (stats gs) (oracleDelta (stats_update response)) e <>
       sumThenClamp (stats gs) (oracleDelta (stats_update response)) e /\
     stats (handleSendMessage 0 gs "" (Return response)).1 <>
       clampPerSource (stats gs) (oracleDelta (stats_update response)) e).
Proof.
  split.
  - intros now gs message response e He.
    destruct (handleSendMessage_resolved now gs message response e He)
      as (gs' & Heq & Hstats & _).
    rewrite Heq. simpl. rewrite Hstats.
    eapply newStats_sumThenClamp, He.
  - exists (handlePurchaseModule 0 initialGameState 0 Validator).
    exists {| narrative := "Exploit"; choices := [];
              stats_update :=
                {| funds_change := None; users_change := None;
                   security_change := Some (-60); hype_change := None;
                   tech_level_change := None;
                   decentralization_change := None |};
              event_type := crisis |}.
    exists (effectsAcc 0 1 0).
    split; [reflexivity|]. split; intros H; discriminate H.
Qed.

(** The end-to-end example of the specification: one miner in slot 0 of a
    fresh game (funds 8500), the oracle grants 200, the turn ends with funds
    8850 and the four bounded fields unchanged. *)
Lemma merge_sums_then_clamps_witness :
  let gs := handlePurchaseModule 0 initialGameState 0 Miner in
  let response :=
    {| narrative := "Launch"; choices := ["Audit"; "Market"];
       stats_update :=
         {| funds_change := Some 200; users_change := None;
            security_change := None; hype_change := None;
            tech_level_change := None; decentralization_change := None |};
       event_type := normal |} in
  funds (stats gs) = 8500 /\
  infraEffects (infrastructure gs) = Return (effectsAcc 150 0 0) /\
  stats (handleSendMessage 1 gs "ship it" (Return response)).1 =
    {| funds := 8850; users := 1; security := 50; hype := 10;
       techLevel := 10; decentralization := 0; era := 1 |}.
Proof.
  intros gs response.
  split; [reflexivity|]. split; [reflexivity|].
  rewrite (proj1 merge_sums_then_clamps 1 gs "ship it" response
             (effectsAcc 150 0 0) eq_refl).
  reflexivity.
Defined.

(** C10: a resolved turn sets gameOver exactly when the oracle's event type
    is game_over and gameWon exactly when it is victory, so the state it ends
    in never has both flags; a turn that ends in the handler's error branch
    keeps the flags it had. *)
Theorem terminal_flags_exclusive (now : Z) (gs gs' : GameState)
    (message : string) (response : GeminiResponse) :
  handleSendMessage now gs message (Return response) = (gs', Return ()) ->
  (gameOver gs' = true <-> event_type response = game_over) /\
  (gameWon gs' = true <-> event_type response = victory) /\
  ~ (gameOver gs' = true /\ gameWon gs' = true) /\
  (forall (exn : Exn) (gs'' : GameState),
     handleSendMessage now gs message (Throw exn) = (gs'', Return ()) ->
     gameOver gs'' = gameOver gs /\ gameWon gs'' = gameWon gs).
Proof.
  unfold handleSendMessage.
  destruct (infraEffects (infrastructure gs)) as [e|]; [|discriminate].
  intros [= <-]. simpl.
  rewrite !bool_decide_eq_true.
  repeat split; try tauto.
  - intros [H1 H2]. rewrite H1 in H2. discriminate H2.
  - injection H as <-. reflexivity.
  - injection H as <-. reflexivity.
Qed.

Lemma terminal_flags_exclusive_witness :
  let response :=
    {| narrative := "Mass adoption"; choices := [];
       stats_update :=
         {| funds_change := None; users_change := Some 5; security_change := None;
            hype_change := None; tech_level_change := None;
            decentralization_change := None |};
       event_type := victory |} in
  let gs' := (handleSendMessage 7 initialGameState "list it" (Return response)).1 in
  gameWon gs' = true /\ gameOver gs' = false /\
  ~ (gameOver gs' = true /\ gameWon gs' = true).
Proof.
  intros response gs'.
  destruct (terminal_flags_exclusive 7 initialGameState gs' "list it" response
              eq_refl) as (_ & _ & Hexcl & _).
  split; [reflexivity|]. split; [reflexivity|]. exact Hexcl.
Defined.

(** ** Purchases *)

Section Purchase.




Lemma cost_positive (t : ModuleType) : 0 < cost (AVAILABLE_MODULES t).
Proof. destruct t; reflexivity. Qed.

Lemma purchase_rejected (now : Z) (gs : GameState) (slotId : Z)
    (t : ModuleType) :
  funds (stats gs) < cost (AVAILABLE_MODULES t) ->
  handlePurchaseModule now gs slotId t = gs.
Proof.
  intros Hlt. unfold handlePurchaseModule.
  replace (funds (stats gs) <? cost (AVAILABLE_MODULES t)) with true by lia.
  reflexivity.
Qed.

Lemma purchase_accepted (now : Z) (gs : GameState) (slotId : Z)
    (t : ModuleType) :
  cost (AVAILABLE_MODULES t) <= funds (stats gs) ->
  handlePurchaseModule now gs slotId t =
  {| isStarted := isStarted gs;
     isLoading := isLoading gs;
     turnCount := turnCount gs;
     settings := settings gs;
     stats :=
       {| funds := funds (stats gs) - cost (AVAILABLE_MODULES t);
          users := users (stats gs);
          security := security (stats gs);
          hype := hype (stats gs);
          techLevel := techLevel (stats gs);
          decentralization := decentralization (stats gs);
          era := era (stats gs) |};
     history := history gs;
     gameOver := gameOver gs;
     gameWon := gameWon gs;
     lastSaved := lastSaved gs;
     infrastructure :=
       assign (spread (infrastructure gs)) slotId
         {| slot_id := slotId; module := Some (installed now t) |} |}.
Proof.
  intros Hle. unfold handlePurchaseModule.
  replace (funds (stats gs) <? cost (AVAILABLE_MODULES t)) with false by lia.
  reflexivity.
Qed.


End Purchase.






(** ** Starting a game *)

Section Start.

Lemma roundToDouble_nonneg (n : Z) : 0 <= n -> 0 <= roundToDouble n.
Proof.
  intros Hn. unfold roundToDouble.
  destruct (Z.log2 n - 52 <=? 0) eqn:Hs; [exact Hn|].
  apply Z.leb_gt in Hs.
  assert (HP : 0 < 2 ^ (Z.log2 n - 52)) by (apply Z.pow_pos_nonneg; lia).
  assert (Hq : 0 <= n / 2 ^ (Z.log2 n - 52)) by (apply Z.div_pos; lia).
  destruct (_ || _); apply Z.mul_nonneg_nonneg; lia.
Qed.

Lemma floorTenth_nonneg (u : Z) : 0 <= u -> 0 <= floorTenth u.
Proof.
  intros Hu. unfold floorTenth. apply Z.div_pos; [|reflexivity].
  apply Z.mul_nonneg_nonneg; [apply Z.sgn_nonneg, Hu|].
  apply roundToDouble_nonneg. apply Z.mul_nonneg_nonneg; [apply Z.abs_nonneg | discriminate].
Qed.



Lemma handleStartGame_runs (now : Z) (app : App) (eraOverride : option Z)
    (keepStats : bool) (init : Result GeminiResponse) :
  formIncomplete (formSettings app) = false ->
  getEffectiveApiKey app <> EmptyString ->
  let start := startingStats (gameState app) eraOverride keepStats in
  let prev := seededState app eraOverride keepStats in
  let final := gameState (handleStartGame now app eraOverride keepStats init) in
  stats final =
    {| funds :=
         funds start +
         match init with
         | Return response => or0 (funds_change (stats_update response))
         | Throw _ => 0
         end;
       users := users start;
       security := security start;
       hype := hype start;
       techLevel := techLevel start;
       decentralization := decentralization start;
       era := era start |} /\
  history prev `prefix_of` history final /\
  infrastructure final = infrastructure prev.
Proof.
  intros Hform Hkey start prev final. subst final.
  unfold handleStartGame. rewrite Hform.
  destruct (decide (getEffectiveApiKey app = EmptyString)) as [|_];
    [contradiction|].
  destruct init as [response|exn]; cbn [gameState stats history infrastructure].
  - split; [reflexivity|]. split; [|reflexivity].
    destruct keepStats; apply prefix_app_r; reflexivity.
  - split; [|split; [apply prefix_app_r|]; reflexivity].
    subst start prev. unfold seededState. cbn [stats].
    destruct (startingStats (gameState app) eraOverride keepStats).
    simpl. f_equal. lia.
Qed.

End Start.




(** C9: when the game starts and [initializeGame] resolves, the committed
    stats are the starting stats with [funds_change] (0 when absent) added to
    the funds and nothing bounded: a sum below zero is committed as it is,
    and no other field of the response's [stats_update] has any effect. *)
Theorem init_applies_only_funds_change (now : Z) (app : App)
    (eraOverride : option Z) (keepStats : bool) (response : GeminiResponse) :
  formIncomplete (formSettings app) = false ->
  getEffectiveApiKey app <> EmptyString ->
  let start := startingStats (gameState app) eraOverride keepStats in
  let committed (r : GeminiResponse) :=
    stats (gameState (handleStartGame now app eraOverride keepStats (Return r))) in
  committed response =
    {| funds := funds start + or0 (funds_change (stats_update response));
       users := users start;
       security := security start;
       hype := hype start;
       techLevel := techLevel start;
       decentralization := decentralization start;
       era := era start |} /\
  (funds start + or0 (funds_change (stats_update response)) < 0 ->
   funds (committed response) < 0) /\
  (forall response' : GeminiResponse,
     funds_change (stats_update response') =
       funds_change (stats_update response) ->
     committed response' = committed response).
Proof.
  intros Hform Hkey start committed.
  assert (Hc : forall r, committed r =
    {| funds := funds start + or0 (funds_change (stats_update r));
       users := users start; security := security start;
       hype := hype start; techLevel := techLevel start;
       decentralization := decentralization start; era := era start |}).
  { intros r. subst committed. cbv beta.
    apply (handleStartGame_runs now app eraOverride keepStats (Return r)
             Hform Hkey). }
  split; [apply Hc|]. split.
  - intros Hneg. rewrite Hc. exact Hneg.
  - intros response' Heq. rewrite !Hc, Heq. reflexivity.
Qed.

Lemma init_applies_only_funds_change_witness :
  let app :=
    {| setupMode := true; userApiKey := "k";
       formSettings := settings initialGameState;
       gameState := initialGameState; saveFound := false;
       storedSave := None |} in
  let response :=
    {| narrative := "Genesis"; choices := ["PoW"; "PoS"];
       stats_update :=
         {| funds_change := Some (-20000); users_change := Some 999;
            security_change := Some (-80); hype_change := Some 500;
            tech_level_change := Some 7;
            decentralization_change := Some 3 |};
       event_type := normal |} in
  stats (gameState (handleStartGame 0 app None false (Return response))) =
    {| funds := -10000; users := 1; security := 50; hype := 10;
       techLevel := 10; decentralization := 0; era := 1 |}.
Proof.
  intros app response.
  destruct (init_applies_only_funds_change 0 app None false response)
    as (Hc & _); [reflexivity | discriminate |].
  rewrite Hc. reflexivity.
Defined.

(** ** Loading a saved game *)

Section Load.

Lemma INITIAL_GRID_slots :
  INITIAL_GRID =
  map (fun i : Z => Val {| slot_id := i; module := None |})
    [0; 1; 2; 3; 4; 5; 6; 7; 8; 9; 10; 11].
Proof. reflexivity. Qed.

Lemma restoreSession_INITIAL_GRID (create : ChatFactory)
    (chatSession : option Chat) (apiKey : string) (s : GameSettings)
    (summary : string) (st : GameStats) :
  apiKey <> EmptyString ->
  restoreSession create chatSession apiKey s summary st INITIAL_GRID =
    (Some (create s (era st)), Return ()).
Proof.
  intros Hkey. unfold restoreSession.
  destruct (decide (apiKey = EmptyString)); [contradiction|]. reflexivity.
Qed.

End Load.

(** C8: when the stored record parses and has no infrastructure field, the
    load does not fail: the game leaves setup, the save stays in storage, the
    infrastructure of the loaded state is the empty grid of 12 slots (ids 0
    to 11, no module), and turnCount, settings, stats, history, gameOver,
    gameWon, lastSaved and isStarted are those of the record. *)
Theorem load_defaults_missing_infrastructure (create : ChatFactory)
    (chatSession : option Chat) (app : App)
    (parsed : GameStateOf (option (JsArray GridSlot))) :
  storedSave app = Some (Parses parsed) ->
  infrastructure parsed = None ->
  getEffectiveApiKey app <> EmptyString ->
  let app' := (handleLoadGame create chatSession app).1 in
  let gs := gameState app' in
  infrastructure gs = INITIAL_GRID /\
  length INITIAL_GRID = 12%nat /\
  (forall i : nat,
     (i < 12)%nat ->
     INITIAL_GRID !! i =
       Some (Val {| slot_id := Z.of_nat i; module := None |})) /\
  setupMode app' = false /\
  storedSave app' = storedSave app /\
  turnCount gs = turnCount parsed /\
  settings gs = settings parsed /\
  stats gs = stats parsed /\
  history gs = history parsed /\
  gameOver gs = gameOver parsed /\
  gameWon gs = gameWon parsed /\
  lastSaved gs = lastSaved parsed /\
  isStarted gs = isStarted parsed /\
  isLoading gs = false.
Proof.
  intros Hsaved Hinfra Hkey app' gs. subst gs app'.
  unfold handleLoadGame. rewrite Hsaved.
  destruct (decide (getEffectiveApiKey app = EmptyString)); [contradiction|].
  rewrite Hinfra. cbn [default].
  rewrite restoreSession_INITIAL_GRID by exact Hkey.
  cbn [fst gameState infrastructure setupMode storedSave turnCount settings
       stats history gameOver gameWon lastSaved isStarted isLoading].
  split; [reflexivity|]. split; [reflexivity|]. split.
  - intros i Hi.
    do 12 (destruct i as [|i]; [reflexivity|]). lia.
  - repeat split; reflexivity.
Qed.

Lemma load_defaults_missing_infrastructure_witness :
  let old : GameStateOf (option (JsArray GridSlot)) :=
    {| isStarted := true; isLoading := false; turnCount := 6;
       settings := settings initialGameState;
       stats :=
         {| funds := 4200; users := 310; security := 61; hype := 44;
            techLevel := 23; decentralization := 12; era := 1 |};
       history :=
         [ {| ev_id := id_turn_init 1 100; ev_turn := 0;
              ev_narrative := "Genesis"; ev_choices := Some ["PoW"; "PoS"];
              ev_type := Narrative |} ];
       gameOver := false; gameWon := false;
       lastSaved := Some "2025-01-01T00:00:00.000Z";
       infrastructure := None |} in
  let app :=
    {| setupMode := true; userApiKey := "k";
       formSettings := formSettings initialApp;
       gameState := initialGameState; saveFound := true;
       storedSave := Some (Parses old) |} in
  let app' := (handleLoadGame (fun _ _ _ => Rejects) None app).1 in
  infrastructure (gameState app') = INITIAL_GRID /\
  stats (gameState app') = stats old /\
  setupMode app' = false.
Proof.
  intros old app app'.
  destruct (load_defaults_missing_infrastructure (fun _ _ _ => Rejects) None
              app old eq_refl eq_refl)
    as (Hinfra & _ & _ & Hsetup & _ & _ & _ & Hstats & _);
    [discriminate|].
  fold app' in Hinfra, Hstats, Hsetup.
  split; [exact Hinfra|]. split; [exact Hstats|exact Hsetup].
Defined.

(** ** The oracle client *)

Section Oracle.

Lemma fallback_conforms : asGeminiResponse fallback = Some fallbackResponse.
Proof. reflexivity. Qed.

End Oracle.

(** C3, as the specification states it, fails on JSON that does not follow
    the schema: when the reply is the well-formed text of an object that has
    only a narrative, [processTurn] returns that object as it is, not the
    fallback. *)
Lemma processTurn_returns_nonconforming_json :
  let reply := JObj [("narrative", JStr "gm")] in
  let chat : Chat := fun _ => WellFormed reply in
  asGeminiResponse reply = None /\
  processTurn (Some chat) "hodl" INITIAL_STATS INITIAL_GRID = Return reply /\
  processTurn (Some chat) "hodl" INITIAL_STATS INITIAL_GRID <> Return fallback.
Proof.
  intros reply chat.
  split; [reflexivity|]. split; [reflexivity|]. intros H; discriminate H.
Qed.

(** C3, amended: with a session in place, when [sendMessage] is rejected,
    the result has no text, or the text is not JSON, [processTurn] does not
    throw: it returns the fallback, whose narrative is the connection-lost
    message, whose choices are the single entry Retry, whose stats_update is
    empty and whose event type is normal.  A reply that is well-formed JSON
    is returned as parsed, without a check against the schema. *)
Theorem processTurn_fallback_on_failure (chat : Chat) (userInput : string)
    (currentStats : GameStats) (infra : JsArray GridSlot) (summary : string) :
  hardwareSummary infra = Return summary ->
  let reply := chat (TurnPrompt userInput currentStats summary) in
  let result := processTurn (Some chat) userInput currentStats infra in
  (reply = Rejects \/ reply = NoText \/ reply = Malformed ->
   result = Return fallback /\
   asGeminiResponse fallback =
     Some {| narrative :=
               "Connection lost. The blockchain is congested. Try again.";
             choices := ["Retry"];
             stats_update :=
               {| funds_change := None; users_change := None;
                  security_change := None; hype_change := None;
                  tech_level_change := None;
                  decentralization_change := None |};
             event_type := normal |}) /\
  (forall v : JsValue, reply = WellFormed v -> result = Return v).
Proof.
  intros Hsum reply result. subst result reply.
  unfold processTurn. rewrite Hsum. cbn [mbind Result_bind].
  split.
  - intros [H | [H | H]]; rewrite H; (split; [reflexivity | exact fallback_conforms]).
  - intros v H. rewrite H. reflexivity.
Qed.

Lemma processTurn_fallback_on_failure_witness :
  let chat : Chat := fun _ => Malformed in
  let gs := handlePurchaseModule 1 initialGameState 4 Firewall in
  hardwareSummary (infrastructure gs) = Return "Quantum Firewall" /\
  processTurn (Some chat) "audit" (stats gs) (infrastructure gs) =
    Return fallback.
Proof.
  intros chat gs.
  split; [reflexivity|].
  destruct (processTurn_fallback_on_failure chat "audit" (stats gs)
              (infrastructure gs) "Quantum Firewall" eq_refl) as [Hfail _].
  destruct (Hfail (or_intror (or_intror eq_refl))) as [Hresult _].
  exact Hresult.
Defined.

(** * Further properties of the code *)

(** ** Arrays *)

Section Arrays.

Context {A : Type}.

Lemma forEach_spec {S : Type} (f : S -> option A -> Result S)
    (g : S -> A -> S) :
  (forall s, f s None = Throw TypeError) ->
  (forall s x, f s (Some x) = Return (g s x)) ->
  forall (a : JsArray A) (s : S),
    forEach f a s =
    if allDefined a then Return (fold_left g (values a) s)
    else Throw TypeError.
Proof.
  intros Hnone Hsome a. induction a as [|e a IH]; intros s.
  - reflexivity.
  - destruct e as [| |x]; cbn [forEach].
    + apply IH.
    + rewrite Hnone. reflexivity.
    + rewrite Hsome. cbn [mbind Result_bind]. apply IH.
Qed.

Lemma allVal_allDefined (a : JsArray A) : allVal a = true -> allDefined a = true.
Proof.
  induction a as [|e a IH]; [reflexivity|].
  destruct e; simpl; try discriminate. exact IH.
Qed.

Lemma spread_allVal (a : JsArray A) : allVal a = true -> spread a = a.
Proof.
  induction a as [|e a IH]; [reflexivity|].
  destruct e; simpl; try discriminate.
  intros H. f_equal. apply IH, H.
Qed.

Lemma allVal_values (a : JsArray A) : allVal a = true -> a = map Val (values a).
Proof.
  induction a as [|e a IH]; [reflexivity|].
  destruct e; simpl; try discriminate.
  intros H. f_equal. apply IH, H.
Qed.

Lemma assign_in_range (a : JsArray A) (i : Z) (v : A) :
  0 <= i < Z.of_nat (length a) -> i < 2 ^ 32 - 1 ->
  assign a i v = <[Z.to_nat i := Val v]> a.
Proof.
  intros Hi Hidx. unfold assign.
  replace ((i <? 0) || (2 ^ 32 - 1 <=? i)) with false by lia.
  replace (Z.to_nat i <? length a)%nat with true
    by (symmetry; apply Nat.ltb_lt; lia).
  reflexivity.
Qed.

Lemma assign_lookup_ne (a : JsArray A) (i : Z) (v : A) (j : nat) :
  Z.of_nat j <> i -> (j < length a)%nat ->
  assign a i v !! j = a !! j.
Proof.
  intros Hne Hj. unfold assign.
  destruct ((i <? 0) || (2 ^ 32 - 1 <=? i)) eqn:Hout; [reflexivity|].
  destruct (Z.to_nat i <? length a)%nat eqn:Hlt.
  - apply list_lookup_insert_ne. lia.
  - apply lookup_app_l. exact Hj.
Qed.

Lemma allVal_insert (a : JsArray A) (n : nat) (v : A) :
  allVal a = true -> allVal (<[n := Val v]> a) = true.
Proof.
  revert n. induction a as [|e a IH]; intros n H; [reflexivity|].
  destruct e; simpl in H; try discriminate.
  destruct n; simpl; [exact H|]. apply IH, H.
Qed.

End Arrays.

(** ** The grid as the components read it *)

Section GridReads.

Lemma installedTypes_modules (grid : JsArray GridSlot) :
  installedTypes grid =
  map (fun m : InfrastructureModule => type m) (installedModules grid).
Proof.
  unfold installedModules.
  induction grid as [|e grid IH]; [reflexivity|].
  destruct e as [| |slot]; cbn [installedTypes values]; try exact IH.
  cbn [omap list_omap]. destruct (module slot); cbn [map]; rewrite IH;
    reflexivity.
Qed.

Lemma fold_left_collect {B : Type} (g : list B -> GridSlot -> list B)
    (h : GridSlot -> option B) :
  (forall acc s, g acc s = acc ++ from_option (fun b => [b]) [] (h s)) ->
  forall (l : list GridSlot) (acc : list B),
    fold_left g l acc = acc ++ omap h l.
Proof.
  intros Hg l. induction l as [|slot l IH]; intros acc;
    cbn [fold_left omap list_omap].
  - rewrite app_nil_r. reflexivity.
  - rewrite IH, Hg. destruct (h slot); cbn [from_option].
    + rewrite <- app_assoc. reflexivity.
    + rewrite app_nil_r. reflexivity.
Qed.

Lemma moduleNames_spec (grid : JsArray GridSlot) :
  moduleNames grid =
  if allDefined grid
  then Return (map (fun m : InfrastructureModule => name m)
                 (installedModules grid))
  else Throw TypeError.
Proof.
  unfold moduleNames.
  rewrite (forEach_spec _
             (fun acc slot =>
                match module slot with
                | Some m => acc ++ [name m]
                | None => acc
                end)).
  - destruct (allDefined grid); [|reflexivity].
    rewrite (fold_left_collect _
               (fun s => (fun m : InfrastructureModule => name m) <$> module s)).
    + cbn [app]. f_equal. unfold installedModules.
      induction (values grid) as [|slot l IH]; [reflexivity|].
      cbn [omap list_omap]. destruct (module slot);
        cbn [fmap option_fmap option_map map]; rewrite IH; reflexivity.
    + intros acc s0. destruct (module s0); cbn; rewrite ?app_nil_r; reflexivity.
  - reflexivity.
  - intros s0 x. destruct (module x); reflexivity.
Qed.

Lemma filterOccupied_spec (grid : JsArray GridSlot) :
  Infrastructure.filterOccupied grid =
  if allDefined grid
  then Return (omap (fun s => (fun _ => s) <$> module s) (values grid))
  else Throw TypeError.
Proof.
  unfold Infrastructure.filterOccupied.
  rewrite (forEach_spec _
             (fun acc slot =>
                match module slot with
                | Some _ => acc ++ [slot]
                | None => acc
                end)).
  - destruct (allDefined grid); [|reflexivity].
    rewrite (fold_left_collect _
               (fun s => (fun _ : InfrastructureModule => s) <$> module s)).
    + reflexivity.
    + intros acc s0. destruct (module s0); cbn; rewrite ?app_nil_r; reflexivity.
  - reflexivity.
  - intros s0 x. destruct (module x); reflexivity.
Qed.

Lemma length_occupied (l : list GridSlot) :
  length (omap (fun s => (fun _ : InfrastructureModule => s) <$> module s) l) =
  length (omap module l).
Proof.
  induction l as [|slot l IH]; [reflexivity|].
  cbn [omap list_omap]. destruct (module slot); simpl; rewrite ?IH; reflexivity.
Qed.

Lemma capacity_spec (grid : JsArray GridSlot) :
  Infrastructure.capacity grid =
  if allDefined grid then Return (length (installedTypes grid))
  else Throw TypeError.
Proof.
  unfold Infrastructure.capacity. rewrite filterOccupied_spec.
  destruct (allDefined grid); [|reflexivity].
  cbn [mbind Result_bind]. rewrite length_occupied, installedTypes_modules.
  rewrite length_map. reflexivity.
Qed.

Lemma dropTargets_spec (grid : JsArray GridSlot) :
  Infrastructure.dropTargets grid =
  if allDefined grid then Return (map slot_id (values grid))
  else Throw TypeError.
Proof.
  unfold Infrastructure.dropTargets.
  rewrite (forEach_spec _ (fun acc slot => acc ++ [slot_id slot])).
  - destruct (allDefined grid); [|reflexivity].
    rewrite (fold_left_collect _ (fun s => Some (slot_id s))).
    + reflexivity.
    + reflexivity.
  - reflexivity.
  - reflexivity.
Qed.

Lemma installedTypes_length_le (grid : JsArray GridSlot) :
  (length (installedTypes grid) <= length grid)%nat.
Proof.
  induction grid as [|e grid IH]; [simpl; lia|].
  destruct e as [| |slot]; cbn [installedTypes length]; try lia.
  destruct (module slot); cbn [length]; lia.
Qed.

Lemma orStr_nonempty (a b : string) :
  b <> EmptyString -> orStr a b <> EmptyString.
Proof.
  intros Hb. unfold orStr.
  destruct (decide (a = EmptyString)); assumption.
Qed.

End GridReads.

Section Summary.

Lemma summary_built_or_thrown (grid : JsArray GridSlot) :
  (allDefined grid = false -> hardwareSummary grid = Throw TypeError) /\
  (allDefined grid = true ->
   exists s : string, hardwareSummary grid = Return s).
Proof.
  unfold hardwareSummary. rewrite moduleNames_spec.
  destruct (allDefined grid); cbn [mbind Result_bind].
  - split; [discriminate|]. intros _. eexists. reflexivity.
  - split; [reflexivity | discriminate].
Qed.

End Summary.

(** X1: the hardware summary that every prompt embeds throws a TypeError
    exactly when the grid has an undefined element; otherwise it is never the
    empty string, and it is the text "No hardware installed" when no slot
    holds a module. *)
Theorem hardwareSummary_cases (grid : JsArray GridSlot) :
  (hardwareSummary grid = Throw TypeError <-> allDefined grid = false) /\
  (allDefined grid = true ->
   exists s : string,
     hardwareSummary grid = Return s /\ s <> EmptyString /\
     (installedTypes grid = [] -> s = "No hardware installed"%string)).
Proof.
  unfold hardwareSummary. rewrite moduleNames_spec.
  destruct (allDefined grid) eqn:Hdef; cbn [mbind Result_bind].
  - split; [split; discriminate|].
    intros _. eexists. split; [reflexivity|]. split.
    + apply orStr_nonempty. discriminate.
    + rewrite installedTypes_modules.
      destruct (installedModules grid); [reflexivity | discriminate].
  - split; [split; reflexivity|]. discriminate.
Qed.

Lemma hardwareSummary_cases_witness :
  let gs := handlePurchaseModule 3 (handlePurchaseModule 2 initialGameState 7 Rpc)
              1 Miner in
  hardwareSummary (infrastructure gs) = Return "ASIC Miner X1, RPC Cluster"%string /\
  hardwareSummary INITIAL_GRID = Return "No hardware installed"%string /\
  hardwareSummary (infrastructure (handlePurchaseModule 2
                      (handlePurchaseModule 1 initialGameState 14 Miner) 0 Rpc))
    = Throw TypeError.
Proof.
  intros gs. split; [reflexivity|]. split.
  - destruct (proj2 (hardwareSummary_cases INITIAL_GRID) eq_refl)
      as (s & Hs & _ & Hnone).
    rewrite Hs, (Hnone eq_refl). reflexivity.
  - apply (hardwareSummary_cases _). reflexivity.
Defined.

(** ** Installing and removing modules *)

Section Slots.

Lemma installedTypes_insert (grid : JsArray GridSlot) :
  forall (n : nat) (old new : GridSlot),
    grid !! n = Some (Val old) ->
    (length (installedTypes (<[n := Val new]> grid)) + occ old =
     length (installedTypes grid) + occ new)%nat.
Proof.
  induction grid as [|e grid IH]; intros n old new Hn; [discriminate|].
  destruct n as [|n].
  - injection Hn as ->. cbn [insert list_insert installedTypes]. unfold occ.
    destruct (module old), (module new); cbn [length]; lia.
  - change (<[S n := Val new]> (e :: grid)) with (e :: <[n := Val new]> grid).
    change ((e :: grid) !! S n) with (grid !! n) in Hn.
    specialize (IH n old new Hn).
    destruct e as [| |slot]; cbn [installedTypes]; try exact IH.
    destruct (module slot); cbn [length]; lia.
Qed.

Lemma allVal_lookup (grid : JsArray GridSlot) (n : nat) :
  allVal grid = true -> (n < length grid)%nat ->
  exists slot, grid !! n = Some (Val slot).
Proof.
  revert n. induction grid as [|e grid IH]; intros n Hval Hn;
    [simpl in Hn; lia|].
  destruct e as [| |slot]; simpl in Hval; try discriminate.
  destruct n as [|n]; [eexists; reflexivity|].
  apply IH; [exact Hval | simpl in Hn; lia].
Qed.

Lemma occupied_lookup (grid : JsArray GridSlot) (i : Z) (slot : GridSlot) :
  0 <= i -> grid !! Z.to_nat i = Some (Val slot) ->
  occupied grid i = bool_decide (occ slot = 1%nat).
Proof.
  intros Hi Hl. unfold occupied, moduleAt, occ.
  replace (i <? 0) with false by lia. rewrite Hl.
  destruct (module slot).
  - rewrite !bool_decide_eq_true_2; [reflexivity | reflexivity | eexists; reflexivity].
  - rewrite !bool_decide_eq_false_2; [reflexivity | discriminate |].
    intros [x Hx]. discriminate Hx.
Qed.

End Slots.



(** X3: on a grid without holes or undefined elements, a purchase or a
    removal changes no other cell of the grid than the one addressed. *)
Theorem other_slots_untouched (now : Z) (gs : GameState) (slotId : Z)
    (t : ModuleType) (j : nat) :
  allVal (infrastructure gs) = true ->
  (j < length (infrastructure gs))%nat ->
  Z.of_nat j <> slotId ->
  infrastructure (handlePurchaseModule now gs slotId t) !! j =
    infrastructure gs !! j /\
  infrastructure (handleRemoveModule gs slotId) !! j = infrastructure gs !! j.
Proof.
  intros Hval Hj Hne.
  assert (Hassign : forall v : GridSlot,
            assign (spread (infrastructure gs)) slotId v !! j =
            infrastructure gs !! j).
  { intros v. rewrite (spread_allVal _ Hval).
    apply assign_lookup_ne; assumption. }
  split; [|apply Hassign].
  unfold handlePurchaseModule.
  destruct (funds (stats gs) <? cost (AVAILABLE_MODULES t)); [reflexivity|].
  apply Hassign.
Qed.

Lemma other_slots_untouched_witness :
  let gs := handlePurchaseModule 1 initialGameState 5 Firewall in
  infrastructure (handlePurchaseModule 2 gs 6 Miner) !! 5%nat =
    Some (Val {| slot_id := 5; module := Some (installed 1 Firewall) |}) /\
  infrastructure (handleRemoveModule gs 0) !! 5%nat =
    Some (Val {| slot_id := 5; module := Some (installed 1 Firewall) |}).
Proof.
  intros gs.
  destruct (other_slots_untouched 2 gs 6 Miner 5 eq_refl) as [Hp _];
    [simpl; lia | discriminate |].
  destruct (other_slots_untouched 2 gs 0 Miner 5 eq_refl) as [_ Hr];
    [simpl; lia | discriminate |].
  rewrite Hp, Hr. split; reflexivity.
Defined.

(** X4: on a grid without holes or undefined elements, the CAPACITY display
    is the number of installed modules and never exceeds the number of cells;
    an accepted purchase into a cell of the grid raises it by one when the
    cell was empty and leaves it as it was when the cell was occupied; a
    removal lowers it by one when the cell was occupied. *)
Theorem capacity_counts_modules (now : Z) (gs : GameState) (slotId : Z)
    (t : ModuleType) :
  allVal (infrastructure gs) = true ->
  0 <= slotId < Z.of_nat (length (infrastructure gs)) ->
  slotId < 2 ^ 32 - 1 ->
  let n := length (installedTypes (infrastructure gs)) in
  Infrastructure.capacity (infrastructure gs) = Return n /\
  (n <= length (infrastructure gs))%nat /\
  (cost (AVAILABLE_MODULES t) <= funds (stats gs) ->
   Infrastructure.capacity
     (infrastructure (handlePurchaseModule now gs slotId t)) =
     Return (if occupied (infrastructure gs) slotId then n else S n)) /\
  Infrastructure.capacity (infrastructure (handleRemoveModule gs slotId)) =
    Return (if occupied (infrastructure gs) slotId then Nat.pred n else n).
Proof.
  intros Hval Hin Hidx n.
  destruct (allVal_lookup (infrastructure gs) (Z.to_nat slotId) Hval ltac:(lia))
    as [old Hold].
  assert (Hocc : occupied (infrastructure gs) slotId =
                 bool_decide (occ old = 1%nat))
    by (apply occupied_lookup; [lia | exact Hold]).
  assert (Hcap : forall new : GridSlot,
            Infrastructure.capacity
              (assign (spread (infrastructure gs)) slotId new) =
            Return (length (installedTypes
                              (<[Z.to_nat slotId := Val new]>
                                 (infrastructure gs))))).
  { intros new. rewrite (spread_allVal _ Hval).
    rewrite assign_in_range by assumption.
    rewrite capacity_spec.
    rewrite (allVal_allDefined _ (allVal_insert _ _ _ Hval)). reflexivity. }
  split; [rewrite capacity_spec, (allVal_allDefined _ Hval); reflexivity|].
  split; [apply installedTypes_length_le|].
  split.
  - intros Hle. rewrite purchase_accepted by exact Hle.
    cbn [infrastructure]. rewrite Hcap. f_equal.
    pose proof (installedTypes_insert (infrastructure gs) (Z.to_nat slotId) old
                  {| slot_id := slotId; module := Some (installed now t) |} Hold)
      as Hlen.
    rewrite Hocc. subst n. unfold occ in *. cbn [module] in Hlen.
    destruct (module old); [rewrite bool_decide_eq_true_2 by reflexivity
                           |rewrite bool_decide_eq_false_2 by discriminate]; lia.
  - unfold handleRemoveModule. cbn [infrastructure]. rewrite Hcap. f_equal.
    pose proof (installedTypes_insert (infrastructure gs) (Z.to_nat slotId) old
                  {| slot_id := slotId; module := None |} Hold) as Hlen.
    rewrite Hocc. subst n. unfold occ in *. cbn [module] in Hlen.
    destruct (module old); [rewrite bool_decide_eq_true_2 by reflexivity
                           |rewrite bool_decide_eq_false_2 by discriminate]; lia.
Qed.

Lemma capacity_counts_modules_witness :
  let gs := handlePurchaseModule 1 initialGameState 5 Firewall in
  Infrastructure.capacity (infrastructure gs) = Return 1%nat /\
  Infrastructure.capacity (infrastructure (handlePurchaseModule 2 gs 5 Miner)) =
    Return 1%nat /\
  Infrastructure.capacity (infrastructure (handlePurchaseModule 2 gs 6 Miner)) =
    Return 2%nat /\
  Infrastructure.capacity (infrastructure (handleRemoveModule gs 5)) =
    Return 0%nat.
Proof.
  intros gs.
  destruct (capacity_counts_modules 2 gs 5 Miner eq_refl) as (H0 & _ & H1 & H2);
    [simpl; lia | lia |].
  destruct (capacity_counts_modules 2 gs 6 Miner eq_refl) as (_ & _ & H3 & _);
    [simpl; lia | lia |].
  split; [exact H0|]. split; [exact (H1 ltac:(discriminate))|].
  split; [exact (H3 ltac:(discriminate)) | exact H2].
Defined.

(** X5: a purchase never takes the funds below zero and never raises them,
    and neither a purchase nor a removal breaks the bounds of the stats. *)
Theorem purchase_keeps_bounds (now : Z) (gs : GameState) (slotId : Z)
    (t : ModuleType) :
  inBounds (stats gs) ->
  let bought := handlePurchaseModule now gs slotId t in
  0 <= funds (stats bought) <= funds (stats gs) /\
  inBounds (stats bought) /\
  inBounds (stats (handleRemoveModule gs slotId)).
Proof.
  intros Hb bought. subst bought.
  destruct (Z.lt_ge_cases (funds (stats gs)) (cost (AVAILABLE_MODULES t)))
    as [Hlt|Hge].
  - rewrite purchase_rejected by exact Hlt.
    unfold inBounds in Hb. repeat split; try tauto; lia.
  - rewrite purchase_accepted by exact Hge. cbn [stats funds].
    pose proof (cost_positive t).
    unfold inBounds in *. cbn [funds users security hype techLevel decentralization].
    repeat split; try tauto; lia.
Qed.

Lemma purchase_keeps_bounds_witness :
  let bought := handlePurchaseModule 1 initialGameState 5 Firewall in
  0 <= funds (stats bought) <= 10000 /\ inBounds (stats bought).
Proof.
  intros bought.
  destruct (purchase_keeps_bounds 1 initialGameState 5 Firewall) as (H1 & H2 & _).
  - unfold inBounds; simpl; lia.
  - split; [exact H1 | exact H2].
Defined.

(** ** Turns *)

Section Turns.

Lemma newStats_no_change (s : GameStats) :
  inBounds s -> newStats s noUpdate (passive []) = s.
Proof.
  unfold inBounds. intros H. destruct s. unfold newStats, noUpdate, passive, or0.
  cbn in *. f_equal; lia.
Qed.

Lemma sendTurn_settled (now : Z) (chatSession : option Chat) (gs : GameState)
    (message : string) (value : Result JsValue) :
  allDefined (infrastructure gs) = true ->
  processTurn chatSession message (stats gs) (infrastructure gs) = value ->
  sendTurn now chatSession gs message =
  match value with
  | Throw e => Some (handleSendMessage now gs message (Throw e))
  | Return v =>
      (fun r => handleSendMessage now gs message (Return r))
        <$> asGeminiResponse v
  end.
Proof.
  intros Hdef <-. unfold sendTurn. rewrite infraEffects_spec, Hdef.
  destruct (processTurn chatSession message (stats gs) (infrastructure gs));
    [|reflexivity].
  destruct (asGeminiResponse a); reflexivity.
Qed.

End Turns.

(** X6: a turn sent before any session exists is not lost in an exception:
    [processTurn] throws, the handler catches it, and the state it ends in
    has the same stats, turn count, flags and grid, is no longer loading,
    and has two more events: the player's message and an alert. *)
Theorem turn_without_session (now : Z) (gs : GameState) (message : string) :
  allDefined (infrastructure gs) = true ->
  processTurn None message (stats gs) (infrastructure gs) =
    Throw (Error "Game not initialized") /\
  exists gs' : GameState,
    sendTurn now None gs message = Some (gs', Return ()) /\
    stats gs' = stats gs /\ turnCount gs' = turnCount gs /\
    gameOver gs' = gameOver gs /\ gameWon gs' = gameWon gs /\
    infrastructure gs' = infrastructure gs /\ isLoading gs' = false /\
    history gs' =
      history gs ++
      [ {| ev_id := id_turn_user (turnCount gs); ev_turn := turnCount gs;
           ev_narrative := message; ev_choices := None; ev_type := Choice |};
        {| ev_id := id_error now; ev_turn := turnCount gs;
           ev_narrative :=
             "Network Error. Connection to Blockchain failed. (Check API Key)";
           ev_choices := None; ev_type := Alert |} ].
Proof.
  intros Hdef. split; [reflexivity|].
  rewrite (sendTurn_settled now None gs message _ Hdef eq_refl).
  cbn [processTurn]. unfold handleSendMessage.
  rewrite infraEffects_spec, Hdef.
  eexists. split; [reflexivity|].
  cbn [stats turnCount gameOver gameWon infrastructure isLoading history].
  rewrite <- app_assoc. repeat split; reflexivity.
Qed.

Lemma turn_without_session_witness :
  exists gs' : GameState,
    sendTurn 9 None initialGameState "gm" = Some (gs', Return ()) /\
    stats gs' = INITIAL_STATS /\ turnCount gs' = 0 /\
    length (history gs') = 2%nat.
Proof.
  destruct (turn_without_session 9 initialGameState "gm" eq_refl)
    as (_ & gs' & Hrun & Hstats & Hturn & _ & _ & _ & _ & Hhist).
  exists gs'. split; [exact Hrun|]. split; [exact Hstats|].
  split; [exact Hturn|]. rewrite Hhist. reflexivity.
Defined.

(** X7: when the oracle call of a turn fails (rejected, no text, or text that
    is not JSON), the turn still resolves: the turn count goes up by one, the
    stats change by the passive effects alone, both flags are cleared, and
    the log gains the player's message and a narrative event that carries
    the connection-lost text and the single choice Retry.  With no module
    installed and stats within bounds, the stats do not change at all. *)
Theorem failed_oracle_turn (now : Z) (chat : Chat) (gs : GameState)
    (message summary : string) :
  allDefined (infrastructure gs) = true ->
  hardwareSummary (infrastructure gs) = Return summary ->
  (let reply := chat (TurnPrompt message (stats gs) summary) in
   reply = Rejects \/ reply = NoText \/ reply = Malformed) ->
  exists gs' : GameState,
    sendTurn now (Some chat) gs message = Some (gs', Return ()) /\
    turnCount gs' = turnCount gs + 1 /\
    stats gs' =
      newStats (stats gs) noUpdate
        (passive (installedTypes (infrastructure gs))) /\
    gameOver gs' = false /\ gameWon gs' = false /\
    history gs' =
      history gs ++
      [ {| ev_id := id_turn_user (turnCount gs); ev_turn := turnCount gs;
           ev_narrative := message; ev_choices := None; ev_type := Choice |};
        {| ev_id := id_turn_ai (turnCount gs + 1);
           ev_turn := turnCount gs + 1;
           ev_narrative :=
             "Connection lost. The blockchain is congested. Try again.";
           ev_choices := Some ["Retry"%string]; ev_type := Narrative |} ] /\
    (inBounds (stats gs) -> installedTypes (infrastructure gs) = [] ->
     stats gs' = stats gs).
Proof.
  intros Hdef Hsum Hreply.
  assert (Hpt : processTurn (Some chat) message (stats gs) (infrastructure gs)
                = Return fallback).
  { unfold processTurn. rewrite Hsum. cbn [mbind Result_bind].
    cbv zeta in Hreply.
    destruct Hreply as [H | [H | H]]; rewrite H; reflexivity. }
  rewrite (sendTurn_settled now (Some chat) gs message _ Hdef Hpt).
  rewrite fallback_conforms. cbn [fmap option_fmap option_map].
  unfold handleSendMessage. rewrite infraEffects_spec, Hdef.
  eexists. split; [reflexivity|].
  cbn [stats turnCount gameOver gameWon history fallbackResponse stats_update
       narrative choices event_type].
  rewrite <- app_assoc.
  repeat split; try reflexivity.
  intros Hb Hnone. rewrite Hnone. apply newStats_no_change, Hb.
Qed.

Lemma failed_oracle_turn_witness :
  let gs := handlePurchaseModule 1 initialGameState 0 Miner in
  exists gs' : GameState,
    sendTurn 9 (Some (fun _ => Rejects)) gs "gm" = Some (gs', Return ()) /\
    turnCount gs' = 1 /\ funds (stats gs') = 8650 /\ security (stats gs') = 50.
Proof.
  intros gs.
  destruct (failed_oracle_turn 9 (fun _ => Rejects) gs "gm" "ASIC Miner X1"
              eq_refl eq_refl (or_introl eq_refl))
    as (gs' & Hrun & Hturn & Hstats & _).
  exists gs'. split; [exact Hrun|]. split; [exact Hturn|].
  rewrite Hstats. split; reflexivity.
Defined.

(** X8: a resolved turn appends exactly two events to the log, the player's
    message as a choice and then the oracle's narrative with its choices,
    typed failure for game_over, success for victory and narrative for every
    other event type; it raises the turn count by one, ends the loading, and
    leaves settings and grid as they were. *)
Theorem resolved_turn_appends_two_events (now : Z) (gs : GameState)
    (message : string) (response : GeminiResponse) :
  allDefined (infrastructure gs) = true ->
  let gs' := (handleSendMessage now gs message (Return response)).1 in
  history gs' =
    history gs ++
    [ {| ev_id := id_turn_user (turnCount gs); ev_turn := turnCount gs;
         ev_narrative := message; ev_choices := None; ev_type := Choice |};
      {| ev_id := id_turn_ai (turnCount gs + 1); ev_turn := turnCount gs + 1;
         ev_narrative := narrative response;
         ev_choices := Some (choices response);
         ev_type :=
           match event_type response with
           | game_over => Failure
           | victory => Success
           | _ => Narrative
           end |} ] /\
  turnCount gs' = turnCount gs + 1 /\ isLoading gs' = false /\
  settings gs' = settings gs /\ infrastructure gs' = infrastructure gs.
Proof.
  intros Hdef gs'. subst gs'. unfold handleSendMessage.
  rewrite infraEffects_spec, Hdef.
  cbn [fst history turnCount isLoading settings infrastructure].
  rewrite <- app_assoc. unfold aiEventType.
  split; [|repeat split; reflexivity].
  destruct (event_type response); reflexivity.
Qed.

Lemma resolved_turn_appends_two_events_witness :
  let response :=
    {| narrative := "Rug pull"; choices := [];
       stats_update := noUpdate; event_type := game_over |} in
  let gs' := (handleSendMessage 3 initialGameState "ape in" (Return response)).1 in
  map ev_type (history gs') = [Choice; Failure] /\ turnCount gs' = 1.
Proof.
  intros response gs'.
  destruct (resolved_turn_appends_two_events 3 initialGameState "ape in"
              response eq_refl) as (Hhist & Hturn & _).
  fold gs' in Hhist, Hturn. rewrite Hhist. split; [reflexivity | exact Hturn].
Defined.

(** ** The oracle client and the start of a game *)

Section Client.

Lemma getEffectiveApiKey_user (app : App) :
  getEffectiveApiKey app = userApiKey app.
Proof.
  unfold getEffectiveApiKey, orStr, DEFAULT_API_KEY.
  destruct (decide (userApiKey app = EmptyString)) as [->|Hne]; [reflexivity|].
  destruct (decide (userApiKey app = EmptyString)); [contradiction|reflexivity].
Qed.

Lemma initializeGame_result (create : ChatFactory)
    (chatSession : option Chat) (apiKey : string) (s : GameSettings) (e : Z) :
  apiKey <> EmptyString ->
  initializeGame create chatSession apiKey s (Some e) =
  (Some (create s e),
   match
     create s e (InitPrompt (1 <? e) e (founderName s) (projectName s))
   with
   | Rejects => Throw Rejected
   | NoText => Throw (Error "No response from AI")
   | Malformed => Throw SyntaxError
   | WellFormed v => Return v
   end).
Proof.
  intros Hkey. unfold initializeGame.
  destruct (decide (apiKey = EmptyString)); [contradiction | reflexivity].
Qed.

Lemma restoreSession_result (create : ChatFactory)
    (chatSession : option Chat) (apiKey : string) (s : GameSettings)
    (summary : string) (st : GameStats) (grid : JsArray GridSlot) :
  apiKey <> EmptyString ->
  restoreSession create chatSession apiKey s summary st grid =
  (Some (create s (era st)),
   if allDefined grid then Return () else Throw TypeError).
Proof.
  intros Hkey. unfold restoreSession.
  destruct (decide (apiKey = EmptyString)); [contradiction|].
  unfold hardwareSummary. rewrite moduleNames_spec.
  destruct (allDefined grid); reflexivity.
Qed.

End Client.

(** X9: [initializeGame] has no fallback.  Without an API key it throws and
    leaves the session as it was.  With one it replaces the session, returns
    a value exactly when the reply is well-formed JSON, and then returns the
    parsed value itself; every other reply makes it throw. *)
Theorem initializeGame_propagates_failure (create : ChatFactory)
    (chatSession : option Chat) (apiKey : string) (s : GameSettings)
    (eraArg : option Z) :
  let out := initializeGame create chatSession apiKey s eraArg in
  let e := default 1 eraArg in
  let reply :=
    create s e (InitPrompt (1 <? e) e (founderName s) (projectName s)) in
  (apiKey = EmptyString ->
   out = (chatSession, Throw (Error "API Key missing"))) /\
  (apiKey <> EmptyString ->
   out.1 = Some (create s e) /\
   (forall v : JsValue, out.2 = Return v <-> reply = WellFormed v) /\
   ((forall v : JsValue, reply <> WellFormed v) ->
    exists exn : Exn, out.2 = Throw exn)).
Proof.
  intros out e reply. subst out. unfold initializeGame. fold e. split.
  - intros ->. reflexivity.
  - intros Hkey. destruct (decide (apiKey = EmptyString)); [contradiction|].
    cbn [fst snd]. fold reply. split; [reflexivity|]. split.
    + intros v. destruct reply; split; intros H; try discriminate;
        congruence.
    + intros Hnot. destruct reply as [| | |v]; try (eexists; reflexivity).
      exfalso. apply (Hnot v). reflexivity.
Qed.

Lemma initializeGame_propagates_failure_witness :
  (initializeGame (fun _ _ _ => Malformed) None "k"
     (settings initialGameState) None).2 = Throw SyntaxError /\
  (initializeGame (fun _ _ _ => WellFormed (JObj [])) None "k"
     (settings initialGameState) (Some 2)).2 = Return (JObj []).
Proof.
  split.
  - reflexivity.
  - apply (initializeGame_propagates_failure (fun _ _ _ => WellFormed (JObj []))
             None "k" (settings initialGameState) (Some 2));
      [discriminate | reflexivity].
Defined.

(** X10: with an API key, [restoreSession] always installs a new session, and
    it returns normally whatever the session answers to the restore prompt,
    a rejected call included; it throws only when the grid it summarises has
    an undefined element. *)
Theorem restoreSession_ignores_reply (create : ChatFactory)
    (chatSession : option Chat) (apiKey : string) (s : GameSettings)
    (summary : string) (st : GameStats) (grid : JsArray GridSlot) :
  apiKey <> EmptyString ->
  let out := restoreSession create chatSession apiKey s summary st grid in
  out.1 = Some (create s (era st)) /\
  (allDefined grid = true -> out.2 = Return ()) /\
  (allDefined grid = false -> out.2 = Throw TypeError).
Proof.
  intros Hkey out. subst out.
  rewrite restoreSession_result by exact Hkey. cbn [fst snd].
  split; [reflexivity|].
  destruct (allDefined grid); split; intros H; try discriminate; reflexivity.
Qed.

Lemma restoreSession_ignores_reply_witness :
  restoreSession (fun _ _ _ => Rejects) None "k" (settings initialGameState)
    "Genesis" INITIAL_STATS
    (infrastructure (handlePurchaseModule 1 initialGameState 3 Rpc)) =
  (Some (fun _ => Rejects), Return ()).
Proof.
  destruct (restoreSession_ignores_reply (fun _ _ _ => Rejects) None "k"
              (settings initialGameState) "Genesis" INITIAL_STATS
              (infrastructure (handlePurchaseModule 1 initialGameState 3 Rpc)))
    as (H1 & H2 & _); [discriminate|].
  specialize (H2 eq_refl).
  destruct (restoreSession _ _ _ _ _ _ _) as [session result].
  cbn [fst snd] in H1, H2. rewrite H1, H2. reflexivity.
Defined.

(** X11: with an incomplete form or no API key, starting a game does nothing:
    the application state is unchanged, [initializeGame] is not called, and
    the session stays as it was. *)
Theorem start_needs_form_and_key (now : Z) (create : ChatFactory)
    (chatSession : option Chat) (app : App) (eraOverride : option Z)
    (keepStats : bool) (init : Result GeminiResponse) :
  projectName (formSettings app) = EmptyString \/
  ticker (formSettings app) = EmptyString \/
  founderName (formSettings app) = EmptyString \/
  userApiKey app = EmptyString ->
  handleStartGame now app eraOverride keepStats init = app /\
  startGame now create chatSession app eraOverride keepStats =
    Some (app, chatSession).
Proof.
  intros H. unfold handleStartGame, startGame.
  destruct (formIncomplete (formSettings app)) eqn:Hform; [split; reflexivity|].
  destruct (decide (getEffectiveApiKey app = EmptyString)) as [|Hkey];
    [split; reflexivity|].
  exfalso. rewrite getEffectiveApiKey_user in Hkey.
  unfold formIncomplete in Hform.
  apply orb_false_elim in Hform as [Hform Hf].
  apply orb_false_elim in Hform as [Hp Ht].
  apply bool_decide_eq_false in Hp, Ht, Hf. tauto.
Qed.

Lemma start_needs_form_and_key_witness :
  handleStartGame 0 initialApp None false (Throw Rejected) = initialApp /\
  startGame 0 (fun _ _ _ => Rejects) None initialApp None false =
    Some (initialApp, None).
Proof.
  apply (start_needs_form_and_key 0 (fun _ _ _ => Rejects) None initialApp None
           false (Throw Rejected)).
  left. reflexivity.
Defined.

(** X12: a start whose initialization fails (the reply is not well-formed
    JSON) still leaves setup and leaves a started game: the stats are the
    starting stats, the log ends with the alert of the failed
    initialization, and the save effect then writes this game to storage. *)
Theorem failed_initialization_starts_and_saves (now : Z) (create : ChatFactory)
    (chatSession : option Chat) (app : App) (eraOverride : option Z)
    (keepStats : bool) (nowISO : string) :
  formIncomplete (formSettings app) = false ->
  userApiKey app <> EmptyString ->
  let start := startingStats (gameState app) eraOverride keepStats in
  let chat := create (formSettings app) (era start) in
  (forall v : JsValue,
     chat (InitPrompt (1 <? era start) (era start)
             (founderName (formSettings app)) (projectName (formSettings app)))
     <> WellFormed v) ->
  exists app' : App,
    startGame now create chatSession app eraOverride keepStats =
      Some (app', Some chat) /\
    setupMode app' = false /\
    isStarted (gameState app') = true /\
    isLoading (gameState app') = false /\
    stats (gameState app') = start /\
    history (gameState app') =
      (if keepStats then history (gameState app) else []) ++
      [ {| ev_id := id_error_init; ev_turn := 0;
           ev_narrative :=
             "Error initializing game engine. Check API Key validity.";
           ev_choices := None; ev_type := Alert |} ] /\
    exists saved,
      storedSave (saveEffect nowISO app') = Some (Parses saved) /\
      history saved = history (gameState app') /\
      stats saved = start.
Proof.
  intros Hform Hkey start chat Hreply.
  unfold startGame. rewrite Hform.
  rewrite getEffectiveApiKey_user.
  destruct (decide (userApiKey app = EmptyString)); [contradiction|].
  fold start.
  rewrite initializeGame_result by exact Hkey. fold chat.
  assert (Hthrow : exists exn : Exn,
            match
              chat (InitPrompt (1 <? era start) (era start)
                      (founderName (formSettings app))
                      (projectName (formSettings app)))
            with
            | Rejects => Throw Rejected
            | NoText => Throw (Error "No response from AI")
            | Malformed => Throw SyntaxError
            | WellFormed v => Return v
            end = @Throw JsValue exn).
  { destruct (chat _) as [| | |v] eqn:Hchat; try (eexists; reflexivity).
    exfalso. apply (Hreply v). reflexivity. }
  destruct Hthrow as [exn ->].
  eexists. split; [reflexivity|].
  unfold handleStartGame. rewrite Hform.
  rewrite getEffectiveApiKey_user.
  destruct (decide (userApiKey app = EmptyString)); [contradiction|].
  cbn [setupMode gameState isStarted isLoading stats history seededState].
  repeat split.
  unfold saveEffect.
  cbn [gameState isStarted isLoading history negb andb].
  rewrite length_app. cbn [length].
  replace (0 <? length (if keepStats then history (gameState app) else []) + 1)%nat
    with true by (symmetry; apply Nat.ltb_lt; lia).
  eexists. split; [reflexivity|]. split; reflexivity.
Qed.

Lemma failed_initialization_starts_and_saves_witness :
  let app :=
    {| setupMode := true; userApiKey := "k";
       formSettings := settings initialGameState;
       gameState := initialGameState; saveFound := false;
       storedSave := None |} in
  exists app' : App,
    startGame 4 (fun _ _ _ => NoText) None app None false =
      Some (app', Some (fun _ => NoText)) /\
    map ev_type (history (gameState app')) = [Alert] /\
    is_Some (storedSave (saveEffect "t" app')).
Proof.
  intros app.
  destruct (failed_initialization_starts_and_saves 4 (fun _ _ _ => NoText) None
              app None false "t" eq_refl)
    as (app' & Hrun & _ & _ & _ & _ & Hhist & saved & Hsaved & _);
    [discriminate | discriminate |].
  exists app'. split; [exact Hrun|]. rewrite Hhist, Hsaved.
  split; [reflexivity | eexists; reflexivity].
Defined.

(** X13: a fresh start that initializes puts the game back to the initial
    stats (plus the oracle's opening funds change) in era 1, with the empty
    grid, both flags cleared, the form's settings and a log of one narrative
    event of turn 0; the turn count is the one thing it does not reset. *)
Theorem fresh_start_resets_all_but_turn_count (now : Z) (app : App)
    (response : GeminiResponse) :
  formIncomplete (formSettings app) = false ->
  userApiKey app <> EmptyString ->
  let app' := handleStartGame now app None false (Return response) in
  setupMode app' = false /\
  gameState app' =
    {| isStarted := true;
       isLoading := false;
       turnCount := turnCount (gameState app);
       settings := formSettings app;
       stats :=
         {| funds := 10000 + or0 (funds_change (stats_update response));
            users := 1; security := 50; hype := 10; techLevel := 10;
            decentralization := 0; era := 1 |};
       history :=
         [ {| ev_id := id_turn_init 1 now; ev_turn := 0;
              ev_narrative := narrative response;
              ev_choices := Some (choices response);
              ev_type := Narrative |} ];
       gameOver := false;
       gameWon := false;
       lastSaved := lastSaved (gameState app);
       infrastructure := INITIAL_GRID |}.
Proof.
  intros Hform Hkey app'. subst app'. unfold handleStartGame.
  rewrite Hform, getEffectiveApiKey_user.
  destruct (decide (userApiKey app = EmptyString)); [contradiction|].
  split; reflexivity.
Qed.

Lemma fresh_start_resets_all_but_turn_count_witness :
  let played : GameState :=
    {| isStarted := true; isLoading := false; turnCount := 12;
       settings := settings initialGameState;
       stats :=
         {| funds := 3; users := 40; security := 0; hype := 1;
            techLevel := 9; decentralization := 7; era := 3 |};
       history := []; gameOver := true; gameWon := false; lastSaved := None;
       infrastructure :=
         infrastructure (handlePurchaseModule 1 initialGameState 2 Miner) |} in
  let app :=
    {| setupMode := true; userApiKey := "k";
       formSettings := settings initialGameState; gameState := played;
       saveFound := true; storedSave := None |} in
  let gs' :=
    gameState (handleStartGame 8 app None false
                 (Return {| narrative := "Genesis"; choices := ["PoW"%string];
                            stats_update := noUpdate; event_type := normal |})) in
  stats gs' = INITIAL_STATS /\ infrastructure gs' = INITIAL_GRID /\
  gameOver gs' = false /\ turnCount gs' = 12.
Proof.
  intros played app gs'.
  destruct (fresh_start_resets_all_but_turn_count 8 app
              {| narrative := "Genesis"; choices := ["PoW"%string];
                 stats_update := noUpdate; event_type := normal |} eq_refl)
    as [_ Hgs]; [discriminate|].
  fold gs' in Hgs. rewrite Hgs. repeat split; reflexivity.
Defined.

(** ** Persistence *)

(** X14: a load that fails removes the save.  When the stored text does not
    parse, or the stored grid has a null element (so that summarising it for
    the restore prompt throws), the save is deleted from storage, the page
    forgets it had one, and the setup screen is shown again; a text that
    does not parse leaves the game state untouched. *)
Theorem failed_load_deletes_save (create : ChatFactory)
    (chatSession : option Chat) (app : App) :
  userApiKey app <> EmptyString ->
  (storedSave app = Some Unparsable \/
   exists parsed grid,
     storedSave app = Some (Parses parsed) /\
     infrastructure parsed = Some grid /\ allDefined grid = false) ->
  let app' := (handleLoadGame create chatSession app).1 in
  storedSave app' = None /\ saveFound app' = false /\ setupMode app' = true /\
  (storedSave app = Some Unparsable -> gameState app' = gameState app).
Proof.
  intros Hkey Hfail app'. subst app'. unfold handleLoadGame.
  rewrite getEffectiveApiKey_user.
  destruct Hfail as [Hbad | (parsed & grid & Hsaved & Hgrid & Hundef)].
  - rewrite Hbad.
    destruct (decide (userApiKey app = EmptyString)); [contradiction|].
    repeat split; reflexivity.
  - rewrite Hsaved.
    destruct (decide (userApiKey app = EmptyString)); [contradiction|].
    rewrite Hgrid. cbn [default].
    unfold id.
    rewrite restoreSession_result by exact Hkey. rewrite Hundef. cbn [fst].
    repeat split; try reflexivity. intros H; discriminate H.
Qed.

Lemma failed_load_deletes_save_witness :
  let app :=
    {| setupMode := true; userApiKey := "k";
       formSettings := formSettings initialApp;
       gameState := initialGameState; saveFound := true;
       storedSave := Some Unparsable |} in
  let app' := (handleLoadGame (fun _ _ _ => Rejects) None app).1 in
  storedSave app' = None /\ saveFound app' = false /\ setupMode app' = true.
Proof.
  intros app app'.
  destruct (failed_load_deletes_save (fun _ _ _ => Rejects) None app)
    as (H1 & H2 & H3 & _); [discriminate | left; reflexivity |].
  split; [exact H1|]. split; [exact H2 | exact H3].
Defined.



(** X16: deleting the save, once confirmed, empties the storage slot without
    touching the running game; a load after it does nothing at all, deleting
    again changes nothing, and a delete that is not confirmed changes
    nothing. *)
Theorem delete_save_then_load (create : ChatFactory)
    (chatSession : option Chat) (app : App) :
  let deleted := handleDeleteSave true app in
  storedSave deleted = None /\ saveFound deleted = false /\
  gameState deleted = gameState app /\
  handleLoadGame create chatSession deleted = (deleted, chatSession) /\
  handleDeleteSave true deleted = deleted /\
  handleDeleteSave false app = app.
Proof.
  intros deleted. subst deleted. repeat split; reflexivity.
Qed.

(** X17: the API key survives a reload of the page: after [saveApiKey] has
    stored a key, the mount effect of a fresh page reads it back as the
    effective key; the mount effect also finds a stored save, whatever its
    content. *)
Theorem api_key_survives_reload (key : string) (app : App)
    (stored : option SavedText) :
  let fresh :=
    {| setupMode := setupMode initialApp;
       userApiKey := userApiKey initialApp;
       formSettings := formSettings initialApp;
       gameState := gameState initialApp;
       saveFound := saveFound initialApp;
       storedSave := stored |} in
  let page := mountEffect (saveApiKey key app).2 fresh in
  userApiKey (saveApiKey key app).1 = key /\
  getEffectiveApiKey page = key /\
  saveFound page = bool_decide (is_Some stored) /\
  gameState page = initialGameState.
Proof.
  intros fresh page. subst page fresh.
  rewrite getEffectiveApiKey_user.
  cbn [saveApiKey fst snd mountEffect userApiKey saveFound storedSave
       gameState initialApp].
  split; [reflexivity|]. split.
  - destruct (decide (key = EmptyString)) as [->|]; reflexivity.
  - split; [|reflexivity]. destruct stored.
    + rewrite bool_decide_eq_true_2; [reflexivity | eexists; reflexivity].
    + rewrite bool_decide_eq_false_2; [reflexivity|].
      intros [x Hx]. discriminate Hx.
Qed.

(** ** The terminal *)

Section TerminalGuards.

Lemma suggestionButtons_blocked (h : list GameEvent)
    (isLoading gameOver gameWon : bool) :
  isLoading || gameOver || gameWon = true ->
  Terminal.suggestionButtons h isLoading gameOver gameWon = [].
Proof.
  intros Hor. unfold Terminal.suggestionButtons.
  destruct (last h); [|reflexivity].
  assert (Hnone : forall b : bool,
            b && negb isLoading && negb gameOver && negb gameWon = false).
  { intros b. destruct isLoading, gameOver, gameWon, b;
      try reflexivity; discriminate Hor. }
  induction h as [|event h IH]; [reflexivity|].
  cbn [flat_map]. rewrite IH.
  destruct (ev_choices event); [|reflexivity].
  rewrite Hnone. reflexivity.
Qed.

End TerminalGuards.

(** X18: once a turn is pending or the game has ended, the terminal sends
    nothing: a submission of the form and a click on a suggestion both leave
    the game state as it is, and no suggestion button is rendered.  In
    particular the state a turn ends in when the oracle signals game_over or
    victory accepts no further message. *)
Theorem terminal_blocks_when_busy_or_over (trim : string -> string) (now : Z)
    (gs : GameState) (input suggestion : string)
    (settled : Result GeminiResponse) :
  isLoading gs = true \/ gameOver gs = true \/ gameWon gs = true ->
  terminalSubmit trim now gs input settled = (gs, Return ()) /\
  terminalSuggestion now gs suggestion settled = (gs, Return ()) /\
  Terminal.suggestionButtons (history gs) (isLoading gs) (gameOver gs)
    (gameWon gs) = [] /\
  (Terminal.handleSubmit trim input (isLoading gs) (gameOver gs)
     (gameWon gs)).2 = input.
Proof.
  intros Hblock.
  assert (Hor : isLoading gs || gameOver gs || gameWon gs = true).
  { destruct Hblock as [-> | [-> | ->]];
      rewrite ?orb_true_r; reflexivity. }
  unfold terminalSubmit, terminalSuggestion, Terminal.handleSubmit,
    Terminal.handleSuggestionClick.
  rewrite Hor, (suggestionButtons_blocked _ _ _ _ Hor).
  rewrite <- !orb_assoc, (orb_assoc (isLoading gs)), Hor, orb_true_r.
  repeat split; reflexivity.
Qed.

Lemma terminal_blocks_when_busy_or_over_witness :
  let response :=
    {| narrative := "Rug pull"; choices := ["Cry"%string];
       stats_update := noUpdate; event_type := game_over |} in
  let over := (handleSendMessage 3 initialGameState "ape in" (Return response)).1 in
  gameOver over = true /\
  terminalSubmit (fun s => s) 4 over "again"
    (Return {| narrative := "Moon"; choices := [];
               stats_update := noUpdate; event_type := victory |}) =
    (over, Return ()) /\
  Terminal.suggestionButtons (history over) (isLoading over) (gameOver over)
    (gameWon over) = [].
Proof.
  intros response over.
  destruct (terminal_blocks_when_busy_or_over (fun s => s) 4 over "again"
              "Cry"
              (Return {| narrative := "Moon"; choices := [];
                         stats_update := noUpdate; event_type := victory |}))
    as (Hsubmit & _ & Hbuttons & _); [right; left; reflexivity|].
  split; [reflexivity|]. split; [exact Hsubmit | exact Hbuttons].
Defined.

(** X19: while no turn is pending and the game has not ended, a submission
    whose input is not blank hands the input to [handleSendMessage] as
    typed, untrimmed, and clears the input box; a blank input sends nothing
    and stays in the box. *)
Theorem terminal_submits_input_as_typed (trim : string -> string) (now : Z)
    (gs : GameState) (input : string) (settled : Result GeminiResponse) :
  isLoading gs = false -> gameOver gs = false -> gameWon gs = false ->
  let submit :=
    Terminal.handleSubmit trim input (isLoading gs) (gameOver gs) (gameWon gs) in
  (trim input <> EmptyString ->
   submit = (Some input, EmptyString) /\
   terminalSubmit trim now gs input settled =
     handleSendMessage now gs input settled) /\
  (trim input = EmptyString ->
   submit = (None, input) /\
   terminalSubmit trim now gs input settled = (gs, Return ())).
Proof.
  intros Hl Ho Hw submit. subst submit.
  unfold terminalSubmit, Terminal.handleSubmit. rewrite Hl, Ho, Hw.
  rewrite !orb_false_r. split; intros Htrim.
  - rewrite bool_decide_eq_false_2 by exact Htrim. split; reflexivity.
  - rewrite bool_decide_eq_true_2 by exact Htrim. split; reflexivity.
Qed.

Lemma terminal_submits_input_as_typed_witness :
  let trim := fun s : string => if decide (s = " hodl "%string) then "hodl"%string else s in
  Terminal.handleSubmit trim " hodl " false false false =
    (Some " hodl "%string, EmptyString) /\
  Terminal.handleSubmit trim "" false false false = (None, EmptyString).
Proof.
  intros trim.
  destruct (terminal_submits_input_as_typed trim 0 initialGameState " hodl "
              (Throw Rejected) eq_refl eq_refl eq_refl) as [Hsend _].
  destruct (terminal_submits_input_as_typed trim 0 initialGameState ""
              (Throw Rejected) eq_refl eq_refl eq_refl) as [_ Hblank].
  split; [apply Hsend; discriminate | apply Hblank; reflexivity].
Defined.

(** X20: when no turn is pending and the game has not ended, the suggestion
    buttons end with the choices of the last event of the log, if it has
    any; they are exactly these choices when no earlier event carries the
    same id; and a click on any rendered button is accepted. *)
Theorem suggestions_of_last_event (h : list GameEvent) (event : GameEvent)
    (cs : list string) :
  ev_choices event = Some cs -> cs <> [] ->
  let buttons := Terminal.suggestionButtons (h ++ [event]) false false false in
  cs `suffix_of` buttons /\
  (Forall (fun e => ev_id e <> ev_id event) h -> buttons = cs) /\
  (forall c : string,
     c ∈ buttons -> Terminal.handleSuggestionClick c false false false = Some c).
Proof.
  intros Hcs Hne buttons. subst buttons.
  unfold Terminal.suggestionButtons. rewrite last_snoc.
  rewrite flat_map_app. cbn [flat_map]. rewrite Hcs.
  replace (0 <? length cs)%nat with true
    by (symmetry; apply Nat.ltb_lt; destruct cs; [contradiction | simpl; lia]).
  rewrite bool_decide_eq_true_2 by reflexivity. cbn [andb negb].
  rewrite app_nil_r.
  split; [eexists; reflexivity|]. split; [|reflexivity].
  intros Hfresh. rewrite <- (app_nil_l cs) at 2. f_equal.
  induction Hfresh as [|e h' Hid _ IH]; [reflexivity|].
  cbn [flat_map]. rewrite IH, app_nil_r.
  destruct (ev_choices e); [|reflexivity].
  rewrite (bool_decide_eq_false_2 _ Hid). rewrite andb_false_r. reflexivity.
Qed.

Lemma suggestions_of_last_event_witness :
  let response :=
    {| narrative := "Launch"; choices := ["Audit"%string; "Market"%string];
       stats_update := noUpdate; event_type := opportunity |} in
  let gs := (handleSendMessage 3 initialGameState "ship" (Return response)).1 in
  Terminal.suggestionButtons (history gs) (isLoading gs) (gameOver gs)
    (gameWon gs) = ["Audit"%string; "Market"%string].
Proof.
  intros response gs.
  destruct (suggestions_of_last_event
              [ {| ev_id := id_turn_user 0; ev_turn := 0;
                   ev_narrative := "ship"; ev_choices := None;
                   ev_type := Choice |} ]
              {| ev_id := id_turn_ai 1; ev_turn := 1;
                 ev_narrative := "Launch";
                 ev_choices := Some ["Audit"%string; "Market"%string];
                 ev_type := Narrative |}
              ["Audit"%string; "Market"%string] eq_refl)
    as (_ & Hexact & _); [discriminate|].
  apply Hexact. repeat constructor. discriminate.
Defined.

(** ** The shop *)



(** ** Invariants over runs of the page *)

Section Runs.

Lemma wellFormedGrid_INITIAL_GRID : wellFormedGrid INITIAL_GRID.
Proof.
  split; [reflexivity|]. intros i Hi.
  do 12 (destruct i as [|i]; [eexists; reflexivity|]). lia.
Qed.

Lemma allVal_intro {A : Type} (a : JsArray A) :
  (forall i e, a !! i = Some e -> exists x, e = Val x) -> allVal a = true.
Proof.
  induction a as [|e a IH]; intros H; [reflexivity|].
  destruct (H 0%nat e eq_refl) as [x ->]. simpl.
  apply IH. intros i e' He'. apply (H (S i)). exact He'.
Qed.

Lemma wellFormedGrid_allVal (grid : JsArray GridSlot) :
  wellFormedGrid grid -> allVal grid = true.
Proof.
  intros [Hlen Hcells]. apply allVal_intro. intros i e He.
  assert (Hi : (i < 12)%nat)
    by (rewrite <- Hlen; apply lookup_lt_is_Some; eexists; exact He).
  destruct (Hcells i Hi) as [m Hm]. rewrite Hm in He.
  injection He as <-. eexists; reflexivity.
Qed.

Lemma wellFormedGrid_slot_ids (grid : JsArray GridSlot) (slot : GridSlot) :
  wellFormedGrid grid -> slot ∈ values grid -> 0 <= slot_id slot < 12.
Proof.
  intros Hwf Hin.
  pose proof (wellFormedGrid_allVal grid Hwf) as Hval.
  destruct Hwf as [Hlen Hcells].
  assert (Hel : Val slot ∈ grid).
  { rewrite (allVal_values grid Hval). apply list_elem_of_fmap.
    exists slot. split; [reflexivity | exact Hin]. }
  apply list_elem_of_lookup in Hel as [i Hi].
  assert (Hlt : (i < 12)%nat)
    by (rewrite <- Hlen; apply lookup_lt_is_Some; eexists; exact Hi).
  destruct (Hcells i Hlt) as [m Hm]. rewrite Hm in Hi.
  injection Hi as <-. cbn [slot_id]. lia.
Qed.

Lemma wellFormedGrid_assign (grid : JsArray GridSlot) (i : Z)
    (m : option InfrastructureModule) :
  wellFormedGrid grid -> 0 <= i < 12 ->
  wellFormedGrid (assign (spread grid) i {| slot_id := i; module := m |}).
Proof.
  intros Hwf Hi.
  rewrite (spread_allVal _ (wellFormedGrid_allVal grid Hwf)).
  destruct Hwf as [Hlen Hcells].
  rewrite assign_in_range by (rewrite ?Hlen; lia).
  split; [rewrite length_insert; exact Hlen|].
  intros j Hj. destruct (decide (j = Z.to_nat i)) as [->|Hne].
  - exists m. rewrite list_lookup_insert_eq by (rewrite Hlen; lia).
    rewrite Z2Nat.id by lia. reflexivity.
  - rewrite list_lookup_insert_ne by (intros Heq; apply Hne; symmetry; exact Heq).
    apply Hcells, Hj.
Qed.

Lemma good_sendMessage (now : Z) (gs : GameState) (message : string)
    (settled : Result GeminiResponse) :
  goodState (fun g => g) gs ->
  goodState (fun g => g) (handleSendMessage now gs message settled).1.
Proof.
  intros (Hflags & Hgrid & Hstats). unfold handleSendMessage.
  destruct (infraEffects (infrastructure gs)) as [e|];
    [destruct settled as [response|exn]|];
    cbn [fst]; unfold goodState;
    cbn [gameOver gameWon infrastructure stats];
    try (split; [exact Hflags | split; [exact Hgrid | exact Hstats]]).
  split; [|split; [exact Hgrid|]].
  - rewrite !bool_decide_eq_true. intros [H1 H2]. rewrite H1 in H2.
    discriminate H2.
  - destruct (newStats_inBounds (stats gs) (stats_update response) e)
      as (Hs & Hh & Ht & Hd & _ & Hu).
    unfold boundedFields in *. cbn [era newStats] in *.
    repeat split; try tauto.
Qed.

Lemma good_purchase (now : Z) (gs : GameState) (slotId : Z) (t : ModuleType) :
  goodState (fun g => g) gs -> 0 <= slotId < 12 ->
  goodState (fun g => g) (handlePurchaseModule now gs slotId t).
Proof.
  intros (Hflags & Hgrid & Hstats) Hslot.
  destruct (Z.lt_ge_cases (funds (stats gs)) (cost (AVAILABLE_MODULES t)))
    as [Hlt|Hge].
  - rewrite purchase_rejected by exact Hlt.
    split; [exact Hflags | split; [exact Hgrid | exact Hstats]].
  - rewrite purchase_accepted by exact Hge. unfold goodState.
    cbn [gameOver gameWon infrastructure stats].
    split; [exact Hflags|]. split; [apply wellFormedGrid_assign; assumption|].
    exact Hstats.
Qed.

Lemma good_remove (gs : GameState) (slotId : Z) :
  goodState (fun g => g) gs -> 0 <= slotId < 12 ->
  goodState (fun g => g) (handleRemoveModule gs slotId).
Proof.
  intros (Hflags & Hgrid & Hstats) Hslot. unfold handleRemoveModule, goodState.
  cbn [gameOver gameWon infrastructure stats].
  split; [exact Hflags|]. split; [apply wellFormedGrid_assign; assumption|].
  exact Hstats.
Qed.

Lemma good_start (now : Z) (app : App) (init : Result GeminiResponse) :
  goodApp app -> goodApp (handleStartGame now app None false init).
Proof.
  intros [Hgs Hstored]. unfold handleStartGame.
  destruct (formIncomplete (formSettings app)); [split; assumption|].
  destruct (decide (getEffectiveApiKey app = EmptyString));
    [split; assumption|].
  split; [|exact Hstored]. cbn [gameState].
  destruct init as [response|exn]; unfold goodState;
    cbn [gameOver gameWon infrastructure stats seededState startingStats];
    (split; [intros [H _]; discriminate H|]);
    (split; [exact wellFormedGrid_INITIAL_GRID|]);
    unfold boundedFields; cbn; lia.
Qed.

Lemma good_fork (now : Z) (app : App) (init : Result GeminiResponse) :
  goodApp app -> goodApp (forkAndEvolve now app init).
Proof.
  intros [Hgs Hstored]. unfold forkAndEvolve, handleStartGame.
  destruct (formIncomplete (formSettings app)); [split; assumption|].
  destruct (decide (getEffectiveApiKey app = EmptyString));
    [split; assumption|].
  split; [|exact Hstored]. cbn [gameState].
  destruct Hgs as (_ & Hgrid & Hs & Hh & Ht & Hd & Hu & He).
  pose proof (floorTenth_nonneg _ Hu) as Hfloor.
  assert (Hera : 1 <= eraOr1 (Some (era (stats (gameState app)) + 1))).
  { unfold eraOr1.
    destruct (era (stats (gameState app)) + 1 =? 0) eqn:H0; lia. }
  destruct init as [response|exn]; unfold goodState;
    cbn [gameOver gameWon infrastructure stats seededState startingStats];
    (split; [intros [H _]; discriminate H|]);
    (split; [exact Hgrid|]);
    unfold boundedFields;
    cbn [security hype techLevel decentralization users era];
    repeat split; try lia; assumption.
Qed.

Lemma good_load (create : ChatFactory) (chatSession : option Chat) (app : App) :
  goodApp app -> goodApp (handleLoadGame create chatSession app).1.
Proof.
  intros Hgood. pose proof Hgood as [Hgs Hstored]. unfold handleLoadGame.
  destruct (storedSave app) as [saved|] eqn:Hsaved; [|exact Hgood].
  destruct (decide (getEffectiveApiKey app = EmptyString)); [exact Hgood|].
  destruct saved as [|parsed].
  - split; [exact Hgs|]. intros p H; discriminate H.
  - destruct (Hstored parsed eq_refl) as (Hflags & Hgrid & Hstats).
    destruct (restoreSession _ _ _ _ _ _ _) as [session [[]|exn]]; cbn [fst].
    + split.
      * unfold goodState.
        cbn [gameState gameOver gameWon infrastructure stats].
        split; [exact Hflags|]. split; [exact Hgrid | exact Hstats].
      * cbn [storedSave]. intros p [= <-].
        split; [exact Hflags | split; [exact Hgrid | exact Hstats]].
    + split.
      * unfold goodState.
        cbn [gameState gameOver gameWon infrastructure stats].
        split; [exact Hflags|]. split; [exact Hgrid | exact Hstats].
      * intros p H; discriminate H.
Qed.

Lemma good_save (nowISO : string) (app : App) :
  goodApp app -> goodApp (saveEffect nowISO app).
Proof.
  intros [Hgs Hstored]. unfold saveEffect.
  destruct (isStarted (gameState app) && negb (isLoading (gameState app))
            && (0 <? length (history (gameState app)))%nat);
    [|split; assumption].
  split; [exact Hgs|]. cbn [storedSave]. intros p [= <-].
  destruct Hgs as (Hflags & Hgrid & Hstats). unfold goodState.
  cbn [gameOver gameWon infrastructure stats default].
  rewrite (spread_allVal _ (wellFormedGrid_allVal _ Hgrid)).
  split; [exact Hflags|]. split; [exact Hgrid | exact Hstats].
Qed.

Lemma good_setGameState (app : App) (gs : GameState) :
  goodApp app -> goodState (fun g => g) gs -> goodApp (setGameState app gs).
Proof. intros [_ Hstored] Hgs. split; assumption. Qed.

Lemma act_preserves_goodApp (trim : string -> string) (a : Action) (app : App) :
  goodApp app -> goodApp (act trim a app).
Proof.
  intros Hgood. pose proof Hgood as [Hgs Hstored].
  destruct a; cbn [act].
  - destruct (setupMode app); [split|]; assumption.
  - destruct (setupMode app); [split|]; assumption.
  - destruct (setupMode app); [apply good_start|]; assumption.
  - destruct (setupMode app && saveFound app); [apply good_load|]; assumption.
  - destruct (setupMode app && saveFound app); [|assumption].
    destruct confirmed; [|assumption].
    split; [exact Hgs|]. intros p H; discriminate H.
  - destruct (setupMode app); [|split]; assumption.
  - destruct (setupMode app); [assumption|].
    apply good_setGameState; [assumption|]. unfold terminalSubmit.
    destruct (Terminal.handleSubmit _ _ _ _ _).1;
      [apply good_sendMessage|]; assumption.
  - destruct (setupMode app); [assumption|].
    destruct (bool_decide _); [|assumption].
    apply good_setGameState; [assumption|]. unfold terminalSuggestion.
    destruct (Terminal.handleSuggestionClick _ _ _ _);
      [apply good_sendMessage|]; assumption.
  - destruct (setupMode app); [assumption|].
    rewrite dropTargets_spec.
    destruct (allDefined (infrastructure (gameState app))); [|assumption].
    destruct (map slot_id (values (infrastructure (gameState app))) !! cell)
      as [slotId|] eqn:Hcell; [|assumption].
    apply good_setGameState; [assumption|].
    apply list_lookup_fmap_Some in Hcell as (slot & -> & Hslot).
    assert (Hid : 0 <= slot_id slot < 12).
    { apply (wellFormedGrid_slot_ids (infrastructure (gameState app)));
        [apply Hgs | eapply list_elem_of_lookup_2, Hslot]. }
    unfold dragAndDrop, Infrastructure.handleDrop.
    destruct (Infrastructure.handleDragStart _ _);
      [apply good_purchase|]; assumption.
  - destruct (setupMode app); [assumption|].
    unfold Infrastructure.unplugTargets. rewrite filterOccupied_spec.
    destruct (allDefined (infrastructure (gameState app))); [|assumption].
    cbn [mbind Result_bind].
    destruct (map slot_id _ !! cell) as [slotId|] eqn:Hcell; [|assumption].
    apply good_setGameState; [assumption|].
    apply list_lookup_fmap_Some in Hcell as (slot & -> & Hslot).
    apply good_remove; [assumption|].
    apply (wellFormedGrid_slot_ids (infrastructure (gameState app)));
      [apply Hgs|].
    apply list_elem_of_lookup_2 in Hslot.
    apply list_elem_of_omap in Hslot as (slot' & Hin & Hsome).
    destruct (module slot'); [|discriminate].
    injection Hsome as <-. exact Hin.
  - destruct (setupMode app); [assumption|].
    destruct (gameWon (gameState app) && negb (gameOver (gameState app)));
      [apply good_fork|]; assumption.
  - apply good_save, Hgood.
Qed.

Lemma run_preserves_goodApp (trim : string -> string) (actions : list Action) :
  forall app : App, goodApp app -> goodApp (run trim actions app).
Proof.
  unfold run. induction actions as [|a actions IH]; intros app Hgood;
    [exact Hgood|].
  cbn [fold_left]. apply IH, act_preserves_goodApp, Hgood.
Qed.

End Runs.

(** X22: as long as every reply of the oracle follows the response schema
    with integer deltas, whatever the player does on the page, each action
    handled to its end, a page that starts well-formed stays so: the two
    terminal flags are never both set; the grid keeps its 12 slots, each a
    slot with its index as id; security, hype, techLevel and
    decentralization stay within [0, 100], users do not go negative and the
    era stays positive.  Consequently the loop over the grid in
    [handleSendMessage] never throws, the CAPACITY display never exceeds 12,
    and the hardware summary of every prompt can be built. *)
Theorem every_run_keeps_the_game_well_formed (trim : string -> string)
    (actions : list Action) (savedKey : option string) (page : App) :
  goodApp page ->
  let app := run trim actions (mountEffect savedKey page) in
  let gs := gameState app in
  goodApp app /\
  ~ (gameOver gs = true /\ gameWon gs = true) /\
  wellFormedGrid (infrastructure gs) /\
  boundedFields (stats gs) /\
  (forall (now : Z) (message : string) (settled : Result GeminiResponse),
     (handleSendMessage now gs message settled).2 = Return ()) /\
  (exists n : nat,
     Infrastructure.capacity (infrastructure gs) = Return n /\ (n <= 12)%nat) /\
  (exists summary : string,
     hardwareSummary (infrastructure gs) = Return summary).
Proof.
  intros Hpage app gs.
  assert (Hgood : goodApp app).
  { apply run_preserves_goodApp. destruct Hpage as [Hgs Hstored].
    split; [exact Hgs | exact Hstored]. }
  pose proof Hgood as [(Hflags & Hgrid & Hstats) _]. fold gs in Hflags, Hgrid, Hstats.
  pose proof (allVal_allDefined _ (wellFormedGrid_allVal _ Hgrid)) as Hdef.
  split; [exact Hgood|]. split; [exact Hflags|]. split; [exact Hgrid|].
  split; [exact Hstats|]. split; [|split].
  - intros now message settled. apply handleSendMessage_returns, Hdef.
  - exists (length (installedTypes (infrastructure gs))). split.
    + rewrite capacity_spec, Hdef. reflexivity.
    + destruct Hgrid as [Hlen _]. rewrite <- Hlen.
      apply installedTypes_length_le.
  - destruct (proj2 (summary_built_or_thrown (infrastructure gs)) Hdef)
      as (summary & Hsum). exists summary. exact Hsum.
Qed.

Lemma every_run_keeps_the_game_well_formed_witness :
  let form :=
    {| projectName := "Doge"; ticker := "DOGE"; founderName := "Shibe";
       language := en |} in
  let opening :=
    {| narrative := "Genesis"; choices := ["PoW"%string];
       stats_update :=
         {| funds_change := Some (-500); users_change := None;
            security_change := None; hype_change := None;
            tech_level_change := None; decentralization_change := None |};
       event_type := normal |} in
  let moon :=
    {| narrative := "Moon"; choices := [];
       stats_update :=
         {| funds_change := Some 77; users_change := Some 5000000;
            security_change := Some (-900); hype_change := Some 900;
            tech_level_change := None; decentralization_change := None |};
       event_type := victory |} in
  let actions :=
    [ EnterApiKey "k"; EditSettings form; ClickStart 1 (Return opening);
      DragDrop 2 Miner 3; DragDrop 3 Validator 3; ClickUnplug 0;
      Submit 4 "to the moon" (Return moon); RunSaveEffect "t";
      ClickFork 5 (Throw Rejected); ClickSetup ] in
  let app := run (fun s => s) actions (mountEffect None initialApp) in
  goodApp app /\
  stats (gameState app) =
    {| funds := 10000 - 500 - 1500 - 2000 + 77; users := 500000;
       security := 50; hype := 50; techLevel := 20; decentralization := 0;
       era := 2 |} /\
  gameWon (gameState app) = false /\
  Infrastructure.capacity (infrastructure (gameState app)) = Return 0%nat.
Proof.
  intros form opening moon actions app.
  assert (Hpage : goodApp initialApp).
  { split.
    - split; [intros [H _]; discriminate H|].
      split; [exact wellFormedGrid_INITIAL_GRID|].
      unfold boundedFields; simpl; lia.
    - intros p H; discriminate H. }
  destruct (every_run_keeps_the_game_well_formed (fun s => s) actions None
              initialApp Hpage) as (Hgood & _).
  split; [exact Hgood|]. repeat split; reflexivity.
Defined.

(** X23: nothing the player does on a mounted page sets [saveFound]: only
    the mount effect does.  So on a page that found no save when it was
    mounted, the button that loads a save is never rendered, and what the
    save effect writes can only be loaded after a reload. *)
Theorem save_found_only_by_mount (trim : string -> string)
    (actions : list Action) (app : App) :
  saveFound app = false ->
  saveFound (run trim actions app) = false /\
  forall create : ChatFactory,
    act trim (ClickLoad create) (run trim actions app) = run trim actions app.
Proof.
  assert (Hstart : forall now app0 e k init,
            saveFound (handleStartGame now app0 e k init) = saveFound app0).
  { intros now app0 e k init. unfold handleStartGame.
    destruct (formIncomplete _); [reflexivity|].
    destruct (decide _); reflexivity. }
  assert (Hact : forall a app0,
            saveFound app0 = false -> saveFound (act trim a app0) = false).
  { intros a app0 H0. destruct a; cbn [act].
    - destruct (setupMode app0); exact H0.
    - destruct (setupMode app0); exact H0.
    - destruct (setupMode app0); [rewrite Hstart|]; exact H0.
    - rewrite H0, andb_false_r. exact H0.
    - rewrite H0, andb_false_r. exact H0.
    - destruct (setupMode app0); exact H0.
    - destruct (setupMode app0); exact H0.
    - destruct (setupMode app0); [exact H0|].
      destruct (bool_decide _); exact H0.
    - destruct (setupMode app0); [exact H0|].
      destruct (Infrastructure.dropTargets _) as [ids|]; [|exact H0].
      destruct (ids !! cell); exact H0.
    - destruct (setupMode app0); [exact H0|].
      destruct (Infrastructure.unplugTargets _) as [ids|]; [|exact H0].
      destruct (ids !! cell); exact H0.
    - destruct (setupMode app0); [exact H0|].
      destruct (_ && _); [unfold forkAndEvolve; rewrite Hstart|]; exact H0.
    - unfold saveEffect. destruct (_ && _); exact H0. }
  intros H0.
  assert (Hrun : saveFound (run trim actions app) = false).
  { revert app H0. unfold run.
    induction actions as [|a actions IH]; intros app H0; [exact H0|].
    cbn [fold_left]. apply IH, Hact, H0. }
  split; [exact Hrun|].
  intros create. cbn [act]. rewrite Hrun, andb_false_r. reflexivity.
Qed.

Lemma save_found_only_by_mount_witness :
  let started :=
    handleStartGame 1
      {| setupMode := true; userApiKey := "k";
         formSettings := settings initialGameState;
         gameState := initialGameState; saveFound := false;
         storedSave := None |}
      None false
      (Return {| narrative := "Genesis"; choices := ["PoW"%string];
                 stats_update := noUpdate; event_type := normal |}) in
  let app := run (fun s => s) [RunSaveEffect "t"; ClickSetup] started in
  is_Some (storedSave app) /\ setupMode app = true /\ saveFound app = false /\
  act (fun s => s) (ClickLoad (fun _ _ _ => NoText)) app = app.
Proof.
  intros started app.
  destruct (save_found_only_by_mount (fun s => s) [RunSaveEffect "t"; ClickSetup]
              started eq_refl) as [Hfound Hload].
  split; [eexists; reflexivity|]. split; [reflexivity|].
  split; [exact Hfound | apply Hload].
Defined.

(** X24: when the grid has an undefined element, [handleSendMessage] throws
    a TypeError before it reaches its [try]: the player's message is already
    in the log and the game is left loading, with stats, turn count and flags
    untouched; the terminal then accepts nothing more. *)
Theorem turn_on_broken_grid_stays_loading (trim : string -> string) (now : Z)
    (gs : GameState) (message : string) (settled : Result GeminiResponse) :
  allDefined (infrastructure gs) = false ->
  let out := handleSendMessage now gs message settled in
  out.2 = Throw TypeError /\
  isLoading out.1 = true /\
  history out.1 =
    history gs ++
    [ {| ev_id := id_turn_user (turnCount gs); ev_turn := turnCount gs;
         ev_narrative := message; ev_choices := None; ev_type := Choice |} ] /\
  stats out.1 = stats gs /\ turnCount out.1 = turnCount gs /\
  gameOver out.1 = gameOver gs /\ gameWon out.1 = gameWon gs /\
  forall (now' : Z) (input : string) (settled' : Result GeminiResponse),
    terminalSubmit trim now' out.1 input settled' = (out.1, Return ()).
Proof.
  intros Hundef out.
  assert (Hout : out =
    ({| isStarted := isStarted gs; isLoading := true;
        turnCount := turnCount gs; settings := settings gs;
        stats := stats gs;
        history :=
          history gs ++
          [ {| ev_id := id_turn_user (turnCount gs); ev_turn := turnCount gs;
               ev_narrative := message; ev_choices := None;
               ev_type := Choice |} ];
        gameOver := gameOver gs; gameWon := gameWon gs;
        lastSaved := lastSaved gs; infrastructure := infrastructure gs |},
     Throw TypeError)).
  { subst out. unfold handleSendMessage.
    rewrite infraEffects_spec, Hundef. reflexivity. }
  rewrite Hout. cbn [fst snd]. repeat split.
  intros now' input settled'. unfold terminalSubmit, Terminal.handleSubmit.
  cbn [isLoading]. rewrite orb_true_r. reflexivity.
Qed.

Lemma turn_on_broken_grid_stays_loading_witness :
  let broken :=
    handlePurchaseModule 2 (handlePurchaseModule 1 initialGameState 14 Miner)
      0 Rpc in
  let out := handleSendMessage 3 broken "gm" (Throw Rejected) in
  length (infrastructure broken) = 15%nat /\
  out.2 = Throw TypeError /\ isLoading out.1 = true.
Proof.
  intros broken out.
  destruct (turn_on_broken_grid_stays_loading (fun s => s) 3 broken "gm"
              (Throw Rejected) eq_refl) as (Hthrow & Hloading & _).
  split; [reflexivity|]. split; [exact Hthrow | exact Hloading].
Defined.
